(** * Vehicle allocation service (nishorgo/vehicle-allocation)

    A shallow embedding of the request handlers of [app/routes/allocations.py],
    [app/routes/vehicles.py], [app/routes/employees.py] and
    [app/routes/seed.py] together with the part of the document store and of
    the driver they rely on, followed by the properties of the allocation
    rules and of the handlers.

    Conventions of the model.
    - An instant ([datetime]) is an integer count of milliseconds, the
      resolution at which the document store keeps instants.  Every use the
      handlers make of an instant (its [.date()], a comparison with a stored
      instant, storing it) depends on its millisecond part only, so an
      instant is represented by that part; [datetime.max.time()] is the last
      representable instant of a day.
    - A calendar day ([date]) is an integer count of days.
    - A collection is the list of its documents in insertion order, each
      document a pair of its [_id] and its remaining fields.
    - A handler is a computation over the store that returns a value or
      raises; the values a handler obtains from the outside (clock readings,
      the identifier the driver generates for an inserted document) are
      arguments, one per read, in the order of the reads. *)

From Stdlib Require Import ZArith List String Ascii Bool Lia.
From Stdlib Require Import FinFun Sorting.Permutation Sorting.Sorted.
Import ListNotations.
Local Open Scope string_scope.
Local Open Scope list_scope.
Local Open Scope Z_scope.

(** ** Instants and calendar days *)

Module Datetime.

Definition datetime := Z.
Definition date := Z.

Definition ticks_per_day : Z := 86400000.

  (** [datetime.min.time()] and [datetime.max.time()], as offsets in a day. *)
Definition time_min : Z := 0.
Definition time_max : Z := ticks_per_day - 1.

  (** [dt.date()] *)
Definition date_of (dt : datetime) : date := dt / ticks_per_day.

  (** [datetime.combine(d, t)] *)
Definition combine (d : date) (t : Z) : datetime := d * ticks_per_day + t.

End Datetime.
Import Datetime.

(** ** Exceptions and results *)

Inductive exn : Type :=
| HTTPException (status_code : Z) (detail : string)
| RequestValidationError (param : string)
| InvalidId (oid : string)
| InvalidDocument
| DuplicateKeyError
| AttributeError.

Inductive result (A : Type) : Type :=
| Ok (a : A)
| Raise (e : exn).
Arguments Ok {A} a.
Arguments Raise {A} e.

Definition is_HTTPException (e : exn) : bool :=
  match e with HTTPException _ _ => true | _ => false end.

(** [str(e)], the text the catch-all handlers embed in their detail. *)
Definition exn_str (e : exn) : string :=
  match e with
  | HTTPException _ detail => detail
  | RequestValidationError p => p
  | InvalidId s =>
      ("'" ++ s ++ "' is not a valid ObjectId, it must be a 12-byte input or a 24-character hex string")%string
  | InvalidDocument => "cannot encode object"
  | DuplicateKeyError => "duplicate key error"
  | AttributeError => "'NoneType' object has no attribute 'pop'"
  end.

(** ** Store-native identifiers *)

Module ObjectId.

  (** An identifier is kept as its canonical rendering, 24 lower-case
      hexadecimal digits. *)
Record t : Type := mk { hex : string }.

Definition is_hexdigit (c : ascii) : bool :=
    let n := nat_of_ascii c in
    ((48 <=? n) && (n <=? 57) || (97 <=? n) && (n <=? 102)
     || (65 <=? n) && (n <=? 70))%nat.

Definition to_lower (c : ascii) : ascii :=
    let n := nat_of_ascii c in
    if ((65 <=? n) && (n <=? 90))%nat then ascii_of_nat (n + 32) else c.

Fixpoint string_forall (p : ascii -> bool) (s : string) : bool :=
    match s with
    | EmptyString => true
    | String c s' => p c && string_forall p s'
    end.

Fixpoint string_map (f : ascii -> ascii) (s : string) : string :=
    match s with
    | EmptyString => EmptyString
    | String c s' => String (f c) (string_map f s')
    end.

  (** [ObjectId(s)] for a [str] argument: 24 hexadecimal digits, or
      [InvalidId]. *)
Definition new (s : string) : result t :=
    if (String.length s =? 24)%nat && string_forall is_hexdigit s
    then Ok (mk (string_map to_lower s))
    else Raise (InvalidId s).

  (** [ObjectId.is_valid(s)]: whether the constructor accepts [s]. *)
Definition is_valid (s : string) : bool :=
    match new s with Ok _ => true | Raise _ => false end.

  (** [str(oid)] *)
Definition str (o : t) : string := hex o.

Definition eqb (a b : t) : bool := String.eqb (hex a) (hex b).

End ObjectId.

(** ** Entity models ([app/models]) *)

Inductive AllocationStatus : Type := ALLOCATED | CANCELLED.

(** The value of the [str] enumeration, which is what the store keeps. *)
Definition status_value (s : AllocationStatus) : string :=
  match s with ALLOCATED => "allocated" | CANCELLED => "cancelled" end.

Record AllocationCreate : Type := {
  ac_employee_id : string;
  ac_vehicle_id : string;
  ac_allocation_date : datetime;
  ac_purpose : option string
}.

(** A body field of a partial update: absent from the body, or supplied
    (possibly as JSON null). *)
Inductive body_field (A : Type) : Type :=
| Unset
| Supplied (v : option A).
Arguments Unset {A}.
Arguments Supplied {A} v.

Record AllocationUpdate : Type := {
  au_purpose : body_field string;
  au_status : body_field AllocationStatus
}.

(** The fields of an allocation document other than [_id]. *)
Record Allocation : Type := {
  employee_id : string;
  vehicle_id : string;
  allocation_date : datetime;
  purpose : option string;
  status : AllocationStatus;
  created_at : datetime;
  updated_at : datetime
}.

Record VehicleBase : Type := {
  vb_brand : option string;
  vb_model : option string;
  vb_registration_number : option string;
  vb_driver_id : string
}.

(** A stored reference value keeps its BSON type: a string and an
    identifier are different values even when they render alike. *)
Inductive bson_value : Type :=
| BNull
| BString (s : string)
| BObjectId (o : ObjectId.t).

Definition bson_eqb (a b : bson_value) : bool :=
  match a, b with
  | BNull, BNull => true
  | BString x, BString y => String.eqb x y
  | BObjectId x, BObjectId y => ObjectId.eqb x y
  | _, _ => false
  end.

(** The fields of a vehicle document other than [_id]. *)
Record Vehicle : Type := {
  brand : option string;
  model : option string;
  registration_number : option string;
  driver_id : bson_value;
  v_created_at : option datetime
}.

(** ** The document store *)

Definition collection (F : Type) : Type := list (ObjectId.t * F).

Record Db : Type := {
  allocations : collection Allocation;
  vehicles : collection Vehicle
}.

(** A response document: [_id] popped and rendered under the key [id]. *)
Definition with_id (F : Type) : Type := (string * F)%type.

Definition render_id {F : Type} (d : ObjectId.t * F) : with_id F :=
  (ObjectId.str (fst d), snd d).

Section Collection.
Context {F : Type}.

Definition has_id (c : collection F) (i : ObjectId.t) : bool :=
    existsb (fun d => ObjectId.eqb (fst d) i) c.

Definition find_one (p : ObjectId.t * F -> bool) (c : collection F)
    : option (ObjectId.t * F) :=
    List.find p c.

Definition insert_one (i : ObjectId.t) (f : F) (c : collection F)
    : result (collection F) :=
    if has_id c i then Raise DuplicateKeyError else Ok (c ++ [(i, f)]).

  (** [update_one]: the first matching document is rewritten. *)
Fixpoint update_one (p : ObjectId.t * F -> bool) (g : F -> F)
      (c : collection F) : collection F :=
    match c with
    | [] => []
    | d :: c' =>
        if p d then (fst d, g (snd d)) :: c' else d :: update_one p g c'
    end.

  (** [delete_one]: the first matching document is removed. *)
Fixpoint delete_one (p : ObjectId.t * F -> bool) (c : collection F)
      : collection F :=
    match c with
    | [] => []
    | d :: c' => if p d then c' else d :: delete_one p c'
    end.

End Collection.


(** ** Queries on the allocations collection *)

(** A value placed under [allocation_date] in a query: the handlers build
    some filters from [datetime] values and one from bare [date] values. *)
Inductive py_value : Type :=
| PyDate (d : date)
| PyDatetime (dt : datetime).

Inductive date_cond : Type :=
| DateIs (v : py_value)
| DateOps (gte lte : option py_value).

Inductive status_cond : Type :=
| StatusIs (s : string)
| StatusNe (s : string).

(** A query document: an absent key is [None]. *)
Record alloc_query : Type := {
  q__id : option ObjectId.t;
  q_employee_id : option string;
  q_vehicle_id : option string;
  q_status : option status_cond;
  q_allocation_date : option date_cond
}.

Definition empty_query : alloc_query :=
  {| q__id := None; q_employee_id := None; q_vehicle_id := None;
     q_status := None; q_allocation_date := None |}.

Definition by_id (i : ObjectId.t) : alloc_query :=
  {| q__id := Some i; q_employee_id := None; q_vehicle_id := None;
     q_status := None; q_allocation_date := None |}.

(** The driver encodes a [datetime] and rejects a bare [date]
    ([InvalidDocument]). *)
Definition encodable (v : py_value) : bool :=
  match v with PyDatetime _ => true | PyDate _ => false end.

Definition opt_encodable (v : option py_value) : bool :=
  match v with None => true | Some x => encodable x end.

Definition query_encodable (q : alloc_query) : bool :=
  match q_allocation_date q with
  | None => true
  | Some (DateIs v) => encodable v
  | Some (DateOps gte lte) => opt_encodable gte && opt_encodable lte
  end.

Definition opt_test {A : Type} (c : option A) (t : A -> bool) : bool :=
  match c with None => true | Some x => t x end.

Definition gte_test (stored : datetime) (v : py_value) : bool :=
  match v with PyDatetime dt => dt <=? stored | PyDate _ => false end.

Definition lte_test (stored : datetime) (v : py_value) : bool :=
  match v with PyDatetime dt => stored <=? dt | PyDate _ => false end.

Definition date_test (stored : datetime) (c : date_cond) : bool :=
  match c with
  | DateIs (PyDatetime dt) => stored =? dt
  | DateIs (PyDate _) => false
  | DateOps gte lte =>
      opt_test gte (gte_test stored) && opt_test lte (lte_test stored)
  end.

Definition status_test (stored : AllocationStatus) (c : status_cond) : bool :=
  match c with
  | StatusIs s => String.eqb (status_value stored) s
  | StatusNe s => negb (String.eqb (status_value stored) s)
  end.

Definition matches (q : alloc_query) (d : ObjectId.t * Allocation) : bool :=
  opt_test (q__id q) (ObjectId.eqb (fst d))
  && opt_test (q_employee_id q) (String.eqb (employee_id (snd d)))
  && opt_test (q_vehicle_id q) (String.eqb (vehicle_id (snd d)))
  && opt_test (q_status q) (status_test (status (snd d)))
  && opt_test (q_allocation_date q) (date_test (allocation_date (snd d))).

(** [.sort("allocation_date", -1)]: descending, documents with equal
    instants kept in their stored order. *)
Fixpoint insert_desc (d : ObjectId.t * Allocation)
    (l : list (ObjectId.t * Allocation)) : list (ObjectId.t * Allocation) :=
  match l with
  | [] => [d]
  | x :: l' =>
      if allocation_date (snd x) <=? allocation_date (snd d)
      then d :: l
      else x :: insert_desc d l'
  end.

Definition sort_desc (l : list (ObjectId.t * Allocation))
  : list (ObjectId.t * Allocation) :=
  fold_right insert_desc [] l.

(** [.limit(n)]: zero means no limit, a negative count its magnitude. *)
Definition cursor_limit {A : Type} (n : Z) (l : list A) : list A :=
  if n =? 0 then l else firstn (Z.to_nat (Z.abs n)) l.

(** A query on the vehicles collection. *)
Record vehicle_query : Type := {
  vq__id : option ObjectId.t;
  vq_driver_id : option bson_value
}.

Definition vehicle_matches (q : vehicle_query) (d : ObjectId.t * Vehicle)
  : bool :=
  opt_test (vq__id q) (ObjectId.eqb (fst d))
  && opt_test (vq_driver_id q) (bson_eqb (driver_id (snd d))).

(** Python's [set(xs)] of strings, kept as a duplicate-free list. *)
Definition py_set (xs : list string) : list string := nodup string_dec xs.

Definition set_mem (x : string) (s : list string) : bool :=
  existsb (String.eqb x) s.

(** ** Handlers as computations over the store *)

Definition M (A : Type) : Type := Db -> result A * Db.

Definition ret {A : Type} (a : A) : M A := fun db => (Ok a, db).

Definition raise {A : Type} (e : exn) : M A := fun db => (Raise e, db).

Definition lift {A : Type} (r : result A) : M A := fun db => (r, db).

Definition bind {A B : Type} (m : M A) (k : A -> M B) : M B :=
  fun db =>
    match m db with
    | (Ok a, db') => k a db'
    | (Raise e, db') => (Raise e, db')
    end.

(** [try: m  except Exception as e: h e] *)
Definition try_except {A : Type} (m : M A) (h : exn -> M A) : M A :=
  fun db =>
    match m db with
    | (Ok a, db') => (Ok a, db')
    | (Raise e, db') => h e db'
    end.

Notation "x <- m ;; k" := (bind m (fun x => k))
  (at level 61, m at next level, right associativity).

Definition allocations_find_one (q : alloc_query)
  : M (option (ObjectId.t * Allocation)) :=
  fun db =>
    if query_encodable q
    then (Ok (find_one (matches q) (allocations db)), db)
    else (Raise InvalidDocument, db).

Definition allocations_insert_one (i : ObjectId.t) (f : Allocation)
  : M ObjectId.t :=
  fun db =>
    match insert_one i f (allocations db) with
    | Ok c => (Ok i, {| allocations := c; vehicles := vehicles db |})
    | Raise e => (Raise e, db)
    end.

Definition allocations_update_one (q : alloc_query)
    (g : Allocation -> Allocation) : M unit :=
  fun db =>
    if query_encodable q
    then (Ok tt, {| allocations := update_one (matches q) g (allocations db);
                    vehicles := vehicles db |})
    else (Raise InvalidDocument, db).

Definition allocations_delete_one (q : alloc_query) : M unit :=
  fun db =>
    if query_encodable q
    then (Ok tt, {| allocations := delete_one (matches q) (allocations db);
                    vehicles := vehicles db |})
    else (Raise InvalidDocument, db).

(** [allocations.find(q).skip(s).limit(n).sort("allocation_date", -1)],
    iterated to the end: the store sorts, then skips, then limits. *)
Definition allocations_find (q : alloc_query) (skip limit : Z)
  : M (list (ObjectId.t * Allocation)) :=
  fun db =>
    if query_encodable q
    then (Ok (cursor_limit limit
                (skipn (Z.to_nat skip)
                   (sort_desc (filter (matches q) (allocations db))))), db)
    else (Raise InvalidDocument, db).

(** The pipeline [$match q], [$group {_id: None, $addToSet: vehicle_id}]:
    no group when nothing matches, else one group with the distinct
    vehicle references. *)
Definition allocations_aggregate_vehicle_ids (q : alloc_query)
  : M (list (list string)) :=
  fun db =>
    if query_encodable q
    then
      match filter (matches q) (allocations db) with
      | [] => (Ok [], db)
      | ds => (Ok [nodup string_dec (map (fun d => vehicle_id (snd d)) ds)], db)
      end
    else (Raise InvalidDocument, db).

Definition vehicles_find_one (q : vehicle_query)
  : M (option (ObjectId.t * Vehicle)) :=
  fun db => (Ok (find_one (vehicle_matches q) (vehicles db)), db).

Definition vehicles_find_all : M (list (ObjectId.t * Vehicle)) :=
  fun db => (Ok (vehicles db), db).

Definition vehicles_insert_one (i : ObjectId.t) (f : Vehicle) : M ObjectId.t :=
  fun db =>
    match insert_one i f (vehicles db) with
    | Ok c => (Ok i, {| allocations := allocations db; vehicles := c |})
    | Raise e => (Raise e, db)
    end.

(** ** [app/routes/allocations.py] *)

Definition AllocationResponse : Type := with_id Allocation.

(** [create_allocation].  [now_check], [now_created] and [now_updated] are
    the three readings of [datetime.now()], [inserted_id] the identifier of
    the inserted document. *)
Definition create_allocation (inserted_id : ObjectId.t)
    (now_check now_created now_updated : datetime)
    (allocation : AllocationCreate) : M AllocationResponse :=
  if date_of (ac_allocation_date allocation) <? date_of now_check
  then raise (HTTPException 400 "Cannot create allocation for past dates")
  else
    existing_allocation <- allocations_find_one
      {| q__id := None;
         q_employee_id := None;
         q_vehicle_id := Some (ac_vehicle_id allocation);
         q_status := Some (StatusNe "cancelled");
         q_allocation_date :=
           Some (DateIs (PyDatetime (ac_allocation_date allocation))) |} ;;
    match existing_allocation with
    | Some _ =>
        raise (HTTPException 401 "Vehicle is already allocated for this date")
    | None =>
        let new_allocation :=
          {| employee_id := ac_employee_id allocation;
             vehicle_id := ac_vehicle_id allocation;
             allocation_date := ac_allocation_date allocation;
             purpose := ac_purpose allocation;
             status := ALLOCATED;
             created_at := now_created;
             updated_at := now_updated |} in
        result_id <- allocations_insert_one inserted_id new_allocation ;;
        created_allocation <- allocations_find_one (by_id result_id) ;;
        match created_allocation with
        | Some d => ret (render_id d)
        | None => raise AttributeError
        end
    end.

(** One key of the [$set] document of an update. *)
Inductive set_field : Type :=
| SetPurpose (v : string)
| SetStatus (v : AllocationStatus)
| SetUpdatedAt (v : datetime).

Definition apply_set (a : Allocation) (k : set_field) : Allocation :=
  match k with
  | SetPurpose v =>
      {| employee_id := employee_id a; vehicle_id := vehicle_id a;
         allocation_date := allocation_date a; purpose := Some v;
         status := status a; created_at := created_at a;
         updated_at := updated_at a |}
  | SetStatus v =>
      {| employee_id := employee_id a; vehicle_id := vehicle_id a;
         allocation_date := allocation_date a; purpose := purpose a;
         status := v; created_at := created_at a;
         updated_at := updated_at a |}
  | SetUpdatedAt v =>
      {| employee_id := employee_id a; vehicle_id := vehicle_id a;
         allocation_date := allocation_date a; purpose := purpose a;
         status := status a; created_at := created_at a;
         updated_at := v |}
  end.

Definition dollar_set (data : list set_field) (a : Allocation) : Allocation :=
  fold_left apply_set data a.

(** The entries of [dict(exclude_unset=True)] that are not [None]. *)
Definition supplied_non_null {A : Type} (f : body_field A)
    (k : A -> set_field) : list set_field :=
  match f with
  | Supplied (Some v) => [k v]
  | Supplied None => []
  | Unset => []
  end.

Definition update_data (allocation_update : AllocationUpdate)
    (now : datetime) : list set_field :=
  supplied_non_null (au_purpose allocation_update) SetPurpose
  ++ supplied_non_null (au_status allocation_update) SetStatus
  ++ [SetUpdatedAt now].

(** [update_allocation].  [today] is the reading of [date.today()], [now]
    that of [datetime.now()]. *)
Definition update_allocation (today : date) (now : datetime)
    (allocation_id : string) (allocation_update : AllocationUpdate)
  : M AllocationResponse :=
  oid <- lift (ObjectId.new allocation_id) ;;
  allocation <- allocations_find_one (by_id oid) ;;
  match allocation with
  | None => raise (HTTPException 404 "Allocation not found")
  | Some (_, a) =>
      if date_of (allocation_date a) <=? today
      then raise (HTTPException 400 "Cannot update on allocated date and after")
      else
        oid1 <- lift (ObjectId.new allocation_id) ;;
        _ <- allocations_update_one (by_id oid1)
               (dollar_set (update_data allocation_update now)) ;;
        oid2 <- lift (ObjectId.new allocation_id) ;;
        updated_allocation <- allocations_find_one (by_id oid2) ;;
        match updated_allocation with
        | Some d => ret (render_id d)
        | None => raise AttributeError
        end
  end.

(** [delete_allocation].  [today] is the reading of [date.today()]. *)
Definition delete_allocation (today : date) (allocation_id : string)
  : M string :=
  oid <- lift (ObjectId.new allocation_id) ;;
  allocation <- allocations_find_one (by_id oid) ;;
  match allocation with
  | None => raise (HTTPException 404 "Allocation not found")
  | Some (_, a) =>
      if allocation_date a <=? combine today time_max
      then raise (HTTPException 400 "Cannot delete on allocated date and after")
      else
        oid1 <- lift (ObjectId.new allocation_id) ;;
        _ <- allocations_delete_one (by_id oid1) ;;
        ret "Allocation deleted successfully"
  end.

(** [Query(default, ge=, le=)] on an integer parameter: the default when
    the parameter is absent, a validation error (HTTP 422) when it is out
    of range. *)
Definition Query (name : string) (default : Z) (ge le : option Z)
    (raw : option Z) : result Z :=
  match raw with
  | None => Ok default
  | Some v =>
      if opt_test ge (fun b => b <=? v) && opt_test le (fun b => v <=? b)
      then Ok v
      else Raise (RequestValidationError name)
  end.

(** Truth value of an optional string parameter: absent and empty are
    both false. *)
Definition truthy (s : option string) : option string :=
  match s with
  | Some EmptyString => None
  | other => other
  end.

(** The [allocation_date] key of the query of [get_allocations]. *)
Definition date_filter (start_date end_date : option date)
  : option date_cond :=
  match start_date, end_date with
  | Some s, Some e => Some (DateOps (Some (PyDate s)) (Some (PyDate e)))
  | Some s, None =>
      Some (DateOps (Some (PyDatetime (combine s time_min))) None)
  | None, Some e =>
      Some (DateOps None (Some (PyDatetime (combine e time_max))))
  | None, None => None
  end.

Definition list_query (employee vehicle : option string)
    (st : option AllocationStatus) (start_date end_date : option date)
  : alloc_query :=
  {| q__id := None;
     q_employee_id := truthy employee;
     q_vehicle_id := truthy vehicle;
     q_status := option_map (fun s => StatusIs (status_value s)) st;
     q_allocation_date := date_filter start_date end_date |}.

(** [get_allocations].  [skip] and [limit] are the raw query parameters. *)
Definition get_allocations (employee vehicle : option string)
    (st : option AllocationStatus) (start_date end_date : option date)
    (skip limit : option Z) : M (list AllocationResponse) :=
  skip' <- lift (Query "skip" 0 (Some 0) None skip) ;;
  limit' <- lift (Query "limit" 10 (Some 1) (Some 100) limit) ;;
  let query := list_query employee vehicle st start_date end_date in
  cursor <- allocations_find query skip' limit' ;;
  ret (map render_id cursor).

Record Availability : Type := {
  av_date : date;
  total_vehicles : nat;
  allocated_vehicles : nat;
  available_vehicles : nat;
  av_vehicles : list (with_id Vehicle)
}.

Definition day_query (check_date : date) : alloc_query :=
  {| q__id := None;
     q_employee_id := None;
     q_vehicle_id := None;
     q_status := Some (StatusNe "cancelled");
     q_allocation_date :=
       Some (DateOps (Some (PyDatetime (combine check_date time_min)))
                     (Some (PyDatetime (combine check_date time_max)))) |}.

(** [check_vehicle_availability] *)
Definition check_vehicle_availability (check_date : date) : M Availability :=
  try_except
    (allocated_result <- allocations_aggregate_vehicle_ids
                           (day_query check_date) ;;
     let allocated_vehicle_ids :=
       py_set (match allocated_result with
               | g :: _ => g
               | [] => []
               end) in
     all_vehicles <- vehicles_find_all ;;
     let processed_vehicles := map render_id all_vehicles in
     let available :=
       filter (fun v => negb (set_mem (fst v) allocated_vehicle_ids))
              processed_vehicles in
     ret {| av_date := check_date;
            total_vehicles := List.length processed_vehicles;
            allocated_vehicles := List.length allocated_vehicle_ids;
            available_vehicles := List.length available;
            av_vehicles := available |})
    (fun e =>
       raise (HTTPException 500
                ("Error checking vehicle availability: " ++ exn_str e)%string)).

(** [get_allocation] *)
Definition get_allocation (allocation_id : string) : M AllocationResponse :=
  try_except
    (if negb (ObjectId.is_valid allocation_id)
     then raise (HTTPException 400 "Invalid allocation ID")
     else
       oid <- lift (ObjectId.new allocation_id) ;;
       allocation <- allocations_find_one (by_id oid) ;;
       match allocation with
       | None => raise (HTTPException 404 "Allocation not found")
       | Some d => ret (render_id d)
       end)
    (fun e =>
       if is_HTTPException e
       then raise e
       else raise (HTTPException 500
                     ("Error retrieving allocation: " ++ exn_str e)%string)).

(** ** [app/routes/vehicles.py] *)

(** [create_vehicle].  The existence check looks for the driver reference
    as an identifier; [vehicle.dict()] stores it as the string it came
    as. *)
Definition create_vehicle (inserted_id : ObjectId.t) (now : datetime)
    (vehicle : VehicleBase) : M (with_id Vehicle) :=
  driver <- lift (ObjectId.new (vb_driver_id vehicle)) ;;
  existing_driver <- vehicles_find_one
    {| vq__id := None; vq_driver_id := Some (BObjectId driver) |} ;;
  match existing_driver with
  | Some _ =>
      raise (HTTPException 400 "Driver is already assigned to another vehicle")
  | None =>
      let new_vehicle :=
        {| brand := vb_brand vehicle;
           model := vb_model vehicle;
           registration_number := vb_registration_number vehicle;
           driver_id := BString (vb_driver_id vehicle);
           v_created_at := Some now |} in
      result_id <- vehicles_insert_one inserted_id new_vehicle ;;
      created_vehicle <- vehicles_find_one
        {| vq__id := Some result_id; vq_driver_id := None |} ;;
      match created_vehicle with
      | Some d => ret (render_id d)
      | None => raise AttributeError
      end
  end.

(** ** [get_allocation_stats] *)

Definition status_eqb (a b : AllocationStatus) : bool :=
  match a, b with
  | ALLOCATED, ALLOCATED => true
  | CANCELLED, CANCELLED => true
  | _, _ => false
  end.

(** The query of [get_allocation_stats]: a whole-day range when both
    bounds are given, no condition otherwise. *)
Definition stats_query (start_date end_date : option date) : alloc_query :=
  match start_date, end_date with
  | Some s, Some e =>
      {| q__id := None; q_employee_id := None; q_vehicle_id := None;
         q_status := None;
         q_allocation_date :=
           Some (DateOps (Some (PyDatetime (combine s time_min)))
                         (Some (PyDatetime (combine e time_max)))) |}
  | _, _ => empty_query
  end.

(** One more document of status [s] in the groups built so far. *)
Fixpoint bump (s : AllocationStatus) (g : list (AllocationStatus * nat))
  : list (AllocationStatus * nat) :=
  match g with
  | [] => [(s, 1%nat)]
  | (k, n) :: g' =>
      if status_eqb k s then (k, S n) :: g' else (k, n) :: bump s g'
  end.

(** [$group {_id: "$status", count: {$sum: 1}}]: one group per status
    that occurs, in the order of first occurrence. *)
Definition group_by_status (ds : list (ObjectId.t * Allocation))
  : list (AllocationStatus * nat) :=
  fold_left (fun g d => bump (status (snd d)) g) ds [].

(** The pipeline [$match q], [$group] by status. *)
Definition allocations_aggregate_status (q : alloc_query)
  : M (list (AllocationStatus * nat)) :=
  fun db =>
    if query_encodable q
    then (Ok (group_by_status (filter (matches q) (allocations db))), db)
    else (Raise InvalidDocument, db).

(** A Python [dict] with string keys, as an association list: setting a
    key that is present replaces its value in place. *)
Fixpoint dict_set (d : list (string * nat)) (k : string) (v : nat)
  : list (string * nat) :=
  match d with
  | [] => [(k, v)]
  | (k', v') :: d' =>
      if String.eqb k' k then (k', v) :: d' else (k', v') :: dict_set d' k v
  end.

Fixpoint dict_get (d : list (string * nat)) (k : string) : option nat :=
  match d with
  | [] => None
  | (k', v') :: d' => if String.eqb k' k then Some v' else dict_get d' k
  end.

Record Stats : Type := {
  total_allocations : nat;
  status_breakdown : list (string * nat)
}.

(** [get_allocation_stats] *)
Definition get_allocation_stats (start_date end_date : option date)
  : M Stats :=
  let query := stats_query start_date end_date in
  stats <- allocations_aggregate_status query ;;
  ret {| total_allocations := list_sum (map snd stats);
         status_breakdown :=
           fold_left (fun d stat => dict_set d (status_value (fst stat))
                                      (snd stat)) stats [] |}.

(** ** Employees and drivers ([app/models], [app/routes/employees.py],
    [app/routes/vehicles.py]) *)

Record EmployeeBase : Type := {
  eb_name : option string;
  eb_department : option string;
  eb_email : option string
}.

(** The fields of an employee document other than [_id]. *)
Record Employee : Type := {
  e_name : option string;
  e_department : option string;
  e_email : option string;
  e_created_at : option datetime
}.

Record DriverBase : Type := {
  drb_name : option string;
  drb_license_number : option string;
  drb_contact_number : option string
}.

(** The fields of a driver document other than [_id]. *)
Record Driver : Type := {
  d_name : option string;
  d_license_number : option string;
  d_contact_number : option string;
  d_created_at : option datetime
}.

(** The four collections of the service. *)
Record Store : Type := {
  core : Db;
  employees : collection Employee;
  drivers : collection Driver
}.

Definition id_is {F : Type} (i : ObjectId.t) (d : ObjectId.t * F) : bool :=
  ObjectId.eqb (fst d) i.

(** [create_employee] *)
Definition create_employee (inserted_id : ObjectId.t) (now : datetime)
    (employee : EmployeeBase) (st : Store)
  : result (with_id Employee) * Store :=
  let new_employee :=
    {| e_name := eb_name employee;
       e_department := eb_department employee;
       e_email := eb_email employee;
       e_created_at := Some now |} in
  match insert_one inserted_id new_employee (employees st) with
  | Raise e => (Raise e, st)
  | Ok c =>
      let st' := {| core := core st; employees := c; drivers := drivers st |} in
      match find_one (id_is inserted_id) c with
      | Some created_employee => (Ok (render_id created_employee), st')
      | None => (Raise AttributeError, st')
      end
  end.

(** [create_driver] *)
Definition create_driver (inserted_id : ObjectId.t) (now : datetime)
    (driver : DriverBase) (st : Store)
  : result (with_id Driver) * Store :=
  let new_driver :=
    {| d_name := drb_name driver;
       d_license_number := drb_license_number driver;
       d_contact_number := drb_contact_number driver;
       d_created_at := Some now |} in
  match insert_one inserted_id new_driver (drivers st) with
  | Raise e => (Raise e, st)
  | Ok c =>
      let st' := {| core := core st; employees := employees st;
                    drivers := c |} in
      match find_one (id_is inserted_id) c with
      | Some created_driver => (Ok (render_id created_driver), st')
      | None => (Raise AttributeError, st')
      end
  end.

(** ** [app/routes/seed.py] *)

(** What can end [seed_data]: an error of the store, a subscript on
    [None], an exhausted cursor, a missing attribute. *)
Inductive seed_exn : Type :=
| StoreError (e : exn)
| TypeError
| StopAsyncIteration
| NoAttribute (name : string).

Inductive outcome (A : Type) : Type :=
| Done (a : A)
| Failed (e : seed_exn).
Arguments Done {A} a.
Arguments Failed {A} e.

Definition SM (A : Type) : Type := Store -> outcome A * Store.

Definition sret {A : Type} (a : A) : SM A := fun st => (Done a, st).

Definition sfail {A : Type} (e : seed_exn) : SM A := fun st => (Failed e, st).

Definition sbind {A B : Type} (m : SM A) (k : A -> SM B) : SM B :=
  fun st =>
    match m st with
    | (Done a, st') => k a st'
    | (Failed e, st') => (Failed e, st')
    end.

Notation "x <~ m ;; k" := (sbind m (fun x => k))
  (at level 61, m at next level, right associativity).

Definition employees_insert (i : ObjectId.t) (f : Employee) : SM unit :=
  fun st =>
    match insert_one i f (employees st) with
    | Ok c => (Done tt, {| core := core st; employees := c;
                           drivers := drivers st |})
    | Raise e => (Failed (StoreError e), st)
    end.

Definition drivers_insert (i : ObjectId.t) (f : Driver) : SM unit :=
  fun st =>
    match insert_one i f (drivers st) with
    | Ok c => (Done tt, {| core := core st; employees := employees st;
                           drivers := c |})
    | Raise e => (Failed (StoreError e), st)
    end.

Definition vehicles_insert (i : ObjectId.t) (f : Vehicle) : SM unit :=
  fun st =>
    match insert_one i f (vehicles (core st)) with
    | Ok c => (Done tt, {| core := {| allocations := allocations (core st);
                                      vehicles := c |};
                           employees := employees st;
                           drivers := drivers st |})
    | Raise e => (Failed (StoreError e), st)
    end.

Definition allocations_insert (i : ObjectId.t) (f : Allocation) : SM unit :=
  fun st =>
    match insert_one i f (allocations (core st)) with
    | Ok c => (Done tt, {| core := {| allocations := c;
                                      vehicles := vehicles (core st) |};
                           employees := employees st;
                           drivers := drivers st |})
    | Raise e => (Failed (StoreError e), st)
    end.

(** [str((await c.find_one())["_id"])]: the first document of the
    collection. *)
Definition first_id {F : Type} (c : Store -> collection F) : SM string :=
  fun st =>
    match c st with
    | d :: _ => (Done (ObjectId.str (fst d)), st)
    | [] => (Failed TypeError, st)
    end.

(** [str((await c.find().skip(1).limit(1).next())["_id"])]: the second
    document of the collection. *)
Definition second_id {F : Type} (c : Store -> collection F) : SM string :=
  fun st =>
    match skipn 1 (c st) with
    | d :: _ => (Done (ObjectId.str (fst d)), st)
    | [] => (Failed StopAsyncIteration, st)
    end.

(** [AllocationStatus.PENDING]: the enumeration has no such member. *)
Definition PENDING : SM AllocationStatus := sfail (NoAttribute "PENDING").

(** [EmployeeBase(...).dict()] and [DriverBase(...).dict()] as stored by
    the seed: no creation timestamp. *)
Definition seed_employee (name email department : string) : Employee :=
  {| e_name := Some name; e_department := Some department;
     e_email := Some email; e_created_at := None |}.

Definition seed_driver (name license_number : string) : Driver :=
  {| d_name := Some name; d_license_number := Some license_number;
     d_contact_number := None; d_created_at := None |}.

(** [VehicleBase(make=, model=, year=, license_plate=, driver_id=).dict()]:
    [make], [year] and [license_plate] are not fields of the model, so the
    brand and the registration number stay unset. *)
Definition seed_vehicle (model_name driver : string) : Vehicle :=
  {| brand := None; model := Some model_name; registration_number := None;
     driver_id := BString driver; v_created_at := None |}.

(** The values [seed_data] obtains from outside: the identifiers of the
    inserted documents, the readings of [date.today()] and of
    [datetime.now()]. *)
Record SeedEnv : Type := {
  id_e1 : ObjectId.t; id_e2 : ObjectId.t; id_e3 : ObjectId.t;
  id_d1 : ObjectId.t; id_d2 : ObjectId.t;
  id_v1 : ObjectId.t; id_v2 : ObjectId.t;
  id_a1 : ObjectId.t; id_a2 : ObjectId.t;
  today_1 : date; today_2 : date;
  now_1c : datetime; now_1u : datetime;
  now_2c : datetime; now_2u : datetime
}.

(** The body of the loop over [allocation_data]. *)
Definition seed_allocation (i : ObjectId.t) (now_c now_u : datetime)
    (allocation : AllocationCreate) : SM unit :=
  st <~ PENDING ;;
  allocations_insert i
    {| employee_id := ac_employee_id allocation;
       vehicle_id := ac_vehicle_id allocation;
       allocation_date := ac_allocation_date allocation;
       purpose := ac_purpose allocation;
       status := st;
       created_at := now_c;
       updated_at := now_u |}.

(** [seed_data] *)
Definition seed_data (env : SeedEnv) : SM string :=
  _ <~ employees_insert (id_e1 env)
         (seed_employee "Dave Smith" "john@example.com" "Sales") ;;
  _ <~ employees_insert (id_e2 env)
         (seed_employee "Dave Chappelle" "jane@example.com" "Marketing") ;;
  _ <~ employees_insert (id_e3 env)
         (seed_employee "Boris Johnson" "bob@example.com" "IT") ;;
  _ <~ drivers_insert (id_d1 env) (seed_driver "Charlie Manjaro" "DL12345") ;;
  _ <~ drivers_insert (id_d2 env) (seed_driver "Alex Brown" "DL67890") ;;
  driver_1 <~ first_id drivers ;;
  driver_2 <~ second_id drivers ;;
  _ <~ vehicles_insert (id_v1 env) (seed_vehicle "Camry" driver_1) ;;
  _ <~ vehicles_insert (id_v2 env) (seed_vehicle "Civic" driver_2) ;;
  employee_1 <~ first_id employees ;;
  vehicle_1 <~ first_id (fun st => vehicles (core st)) ;;
  employee_2 <~ second_id employees ;;
  vehicle_2 <~ second_id (fun st => vehicles (core st)) ;;
  _ <~ seed_allocation (id_a1 env) (now_1c env) (now_1u env)
         {| ac_employee_id := employee_1; ac_vehicle_id := vehicle_1;
            ac_allocation_date := combine (today_1 env + 1) time_min;
            ac_purpose := Some "Business Trip" |} ;;
  _ <~ seed_allocation (id_a2 env) (now_2c env) (now_2u env)
         {| ac_employee_id := employee_2; ac_vehicle_id := vehicle_2;
            ac_allocation_date := combine (today_2 env + 2) time_min;
            ac_purpose := Some "Client Meeting" |} ;;
  sret "Data seeded successfully".

(** ** The domain errors, as the handlers raise them *)

Definition InvalidDate : exn :=
  HTTPException 400 "Cannot create allocation for past dates".

Definition Conflict : exn :=
  HTTPException 401 "Vehicle is already allocated for this date".

Definition NotFound : exn := HTTPException 404 "Allocation not found".

Definition UpdateWindowClosed : exn :=
  HTTPException 400 "Cannot update on allocated date and after".

Definition DeleteWindowClosed : exn :=
  HTTPException 400 "Cannot delete on allocated date and after".

Definition InvalidIdentifier : exn :=
  HTTPException 400 "Invalid allocation ID".

Definition DriverAlreadyAssigned : exn :=
  HTTPException 400 "Driver is already assigned to another vehicle".

(** ** Vocabulary of the availability report *)

(** The store holds an allocation of vehicle reference [v] on calendar day
    [d] that is not cancelled. *)
Definition allocated_on (db : Db) (d : date) (v : string) : Prop :=
  exists x, In x (allocations db)
    /\ vehicle_id (snd x) = v
    /\ status (snd x) <> CANCELLED
    /\ date_of (allocation_date (snd x)) = d.

(** ** Vocabulary of the listing *)

(** [a] may come before [b] in a listing by descending allocation date. *)
Definition date_desc (a b : ObjectId.t * Allocation) : Prop :=
  allocation_date (snd b) <= allocation_date (snd a).

(** The value a raw integer parameter stands for when it is in range. *)
Definition or_default (raw : option Z) (default : Z) : Z :=
  match raw with Some v => v | None => default end.

(** ** Vocabulary of the store invariants *)

(** The identifiers of a collection are pairwise distinct. *)
Definition unique_ids {F : Type} (c : collection F) : Prop :=
  NoDup (map fst c).

(** No two distinct allocations that are not cancelled hold the same
    vehicle at the same instant. *)
Definition slot_unique (c : collection Allocation) : Prop :=
  forall d1 d2, In d1 c -> In d2 c ->
    status (snd d1) <> CANCELLED -> status (snd d2) <> CANCELLED ->
    vehicle_id (snd d1) = vehicle_id (snd d2) ->
    allocation_date (snd d1) = allocation_date (snd d2) ->
    fst d1 = fst d2.

(** The document [create_allocation] builds from a request. *)
Definition new_allocation_of (allocation : AllocationCreate)
    (now_created now_updated : datetime) : Allocation :=
  {| employee_id := ac_employee_id allocation;
     vehicle_id := ac_vehicle_id allocation;
     allocation_date := ac_allocation_date allocation;
     purpose := ac_purpose allocation;
     status := ALLOCATED;
     created_at := now_created;
     updated_at := now_updated |}.

(** The lookup [create_allocation] makes before inserting. *)
Definition conflict_query (allocation : AllocationCreate) : alloc_query :=
  {| q__id := None;
     q_employee_id := None;
     q_vehicle_id := Some (ac_vehicle_id allocation);
     q_status := Some (StatusNe "cancelled");
     q_allocation_date :=
       Some (DateIs (PyDatetime (ac_allocation_date allocation))) |}.

(** ** Vocabulary of vehicle creation *)

(** The document [create_vehicle] builds from a request. *)
Definition new_vehicle_of (vehicle : VehicleBase) (now : datetime) : Vehicle :=
  {| brand := vb_brand vehicle;
     model := vb_model vehicle;
     registration_number := vb_registration_number vehicle;
     driver_id := BString (vb_driver_id vehicle);
     v_created_at := Some now |}.

(** ** [create_allocation], await by await *)

(** The handler up to and including its conflict lookup (the first
    await). *)
Definition create_allocation_lookup (now_check : datetime)
    (allocation : AllocationCreate) : M unit :=
  if date_of (ac_allocation_date allocation) <? date_of now_check
  then raise (HTTPException 400 "Cannot create allocation for past dates")
  else
    existing_allocation <- allocations_find_one (conflict_query allocation) ;;
    match existing_allocation with
    | Some _ =>
        raise (HTTPException 401 "Vehicle is already allocated for this date")
    | None => ret tt
    end.

(** The handler from its insert on (the later awaits). *)
Definition create_allocation_insert (inserted_id : ObjectId.t)
    (now_created now_updated : datetime) (allocation : AllocationCreate)
  : M AllocationResponse :=
  result_id <- allocations_insert_one inserted_id
                 (new_allocation_of allocation now_created now_updated) ;;
  created_allocation <- allocations_find_one (by_id result_id) ;;
  match created_allocation with
  | Some d => ret (render_id d)
  | None => raise AttributeError
  end.

(** One call of the handler with the writes of other requests, [between],
    falling between its lookup and its insert. *)
Definition create_allocation_interleaved (inserted_id : ObjectId.t)
    (now_check now_created now_updated : datetime)
    (allocation : AllocationCreate) (between : Db -> Db)
  : M AllocationResponse :=
  fun db =>
    match create_allocation_lookup now_check allocation db with
    | (Ok _, db1) =>
        create_allocation_insert inserted_id now_created now_updated
          allocation (between db1)
    | (Raise e, db1) => (Raise e, db1)
    end.

(** ** Vocabulary of the statistics *)

(** The allocations [get_allocation_stats] counts: those of the days
    [s] to [e] when both bounds are given, all of them otherwise. *)
Definition counted (start_date end_date : option date)
    (c : collection Allocation) : collection Allocation :=
  match start_date, end_date with
  | Some s, Some e =>
      filter (fun d => (s <=? date_of (allocation_date (snd d)))
                       && (date_of (allocation_date (snd d)) <=? e)) c
  | _, _ => c
  end.

(** How many documents of [c] have status [s]. *)
Definition count_status (s : AllocationStatus) (c : collection Allocation)
  : nat :=
  List.length (filter (fun d => status_eqb (status (snd d)) s) c).

(** The count a list of groups holds for a status, 0 when it has none. *)
Fixpoint group_count (g : list (AllocationStatus * nat))
    (s : AllocationStatus) : nat :=
  match g with
  | [] => 0%nat
  | (k, n) :: g' => if status_eqb k s then n else group_count g' s
  end.

(** ** Vocabulary of the seeding *)

(** A step of the seeding that leaves the allocations as they are. *)
Definition keeps_allocations {A : Type} (m : SM A) : Prop :=
  forall st, allocations (core (snd (m st))) = allocations (core st).

(** The store [seed_data] leaves when the identifiers it is given are
    new: three employees, two drivers, and two vehicles that refer to the
    first and second driver of the collection. *)
Definition seeded (env : SeedEnv) (st : Store) : Store :=
  let employees' :=
    employees st
    ++ [(id_e1 env, seed_employee "Dave Smith" "john@example.com" "Sales");
        (id_e2 env,
         seed_employee "Dave Chappelle" "jane@example.com" "Marketing");
        (id_e3 env, seed_employee "Boris Johnson" "bob@example.com" "IT")] in
  let drivers' :=
    drivers st
    ++ [(id_d1 env, seed_driver "Charlie Manjaro" "DL12345");
        (id_d2 env, seed_driver "Alex Brown" "DL67890")] in
  let driver_1 := ObjectId.str (nth 0 (map fst drivers') (id_d1 env)) in
  let driver_2 := ObjectId.str (nth 1 (map fst drivers') (id_d2 env)) in
  {| core :=
       {| allocations := allocations (core st);
          vehicles :=
            vehicles (core st)
            ++ [(id_v1 env, seed_vehicle "Camry" driver_1);
                (id_v2 env, seed_vehicle "Civic" driver_2)] |};
     employees := employees';
     drivers := drivers' |}.

(** ** Sample data *)

Definition day (n : Z) : datetime := combine n time_min.

Definition oid_a : ObjectId.t := ObjectId.mk "aaaaaaaaaaaaaaaaaaaaaaaa".
Definition oid_b : ObjectId.t := ObjectId.mk "bbbbbbbbbbbbbbbbbbbbbbbb".
Definition oid_c : ObjectId.t := ObjectId.mk "cccccccccccccccccccccccc".
Definition oid_d : ObjectId.t := ObjectId.mk "dddddddddddddddddddddddd".

Definition sample_allocation (v : string) (dt : datetime)
    (st : AllocationStatus) : Allocation :=
  {| employee_id := "e1"; vehicle_id := v; allocation_date := dt;
     purpose := Some "trip"; status := st;
     created_at := day 1; updated_at := day 1 |}.

Definition sample_request (v : string) (dt : datetime) : AllocationCreate :=
  {| ac_employee_id := "e2"; ac_vehicle_id := v; ac_allocation_date := dt;
     ac_purpose := None |}.

Definition sample_vehicle (driver : bson_value) : Vehicle :=
  {| brand := Some "Toyota"; model := Some "Camry";
     registration_number := Some "ABC123"; driver_id := driver;
     v_created_at := Some (day 1) |}.

Definition empty_db : Db := {| allocations := []; vehicles := [] |}.

(** One allocation of vehicle [v1] at noon of day 10. *)
Definition db_one : Db :=
  {| allocations := [(oid_a, sample_allocation "v1" (day 10 + 43200000)
                               ALLOCATED)];
     vehicles := [] |}.

(** The same allocation, cancelled. *)
Definition db_cancelled : Db :=
  {| allocations := [(oid_a, sample_allocation "v1" (day 10 + 43200000)
                               CANCELLED)];
     vehicles := [] |}.

(** Two allocations on different days. *)
Definition db_two : Db :=
  {| allocations :=
       [(oid_a, sample_allocation "v1" (day 10 + 43200000) ALLOCATED);
        (oid_b, sample_allocation "v2" (day 12) ALLOCATED)];
     vehicles := [] |}.

(** Two vehicles, the first one allocated on day 10. *)
Definition db_fleet : Db :=
  {| allocations :=
       [(oid_c, sample_allocation "aaaaaaaaaaaaaaaaaaaaaaaa" (day 10)
                  ALLOCATED)];
     vehicles := [(oid_a, sample_vehicle (BString "d1"));
                  (oid_b, sample_vehicle (BString "d2"))] |}.

Definition sample_vehicle_request (driver : string) : VehicleBase :=
  {| vb_brand := Some "Honda"; vb_model := Some "Civic";
     vb_registration_number := Some "XYZ789"; vb_driver_id := driver |}.

Definition empty_store : Store :=
  {| core := empty_db; employees := []; drivers := [] |}.

Definition sample_env : SeedEnv :=
  {| id_e1 := ObjectId.mk "e00000000000000000000001";
     id_e2 := ObjectId.mk "e00000000000000000000002";
     id_e3 := ObjectId.mk "e00000000000000000000003";
     id_d1 := ObjectId.mk "d00000000000000000000001";
     id_d2 := ObjectId.mk "d00000000000000000000002";
     id_v1 := ObjectId.mk "f00000000000000000000001";
     id_v2 := ObjectId.mk "f00000000000000000000002";
     id_a1 := ObjectId.mk "a00000000000000000000001";
     id_a2 := ObjectId.mk "a00000000000000000000002";
     today_1 := 9; today_2 := 9;
     now_1c := day 9; now_1u := day 9;
     now_2c := day 9; now_2u := day 9 |}.

(** * Properties *)

(** ** Calendar arithmetic *)

Lemma ticks_per_day_pos : 0 < ticks_per_day.
Proof. reflexivity. Qed.

Lemma le_end_of_day (dt : datetime) (d : date) :
  dt <= combine d time_max <-> date_of dt <= d.
Proof.
  unfold combine, time_max, date_of.
  pose proof ticks_per_day_pos as Hpos.
  pose proof (Z.div_mod dt ticks_per_day ltac:(lia)) as Hdm.
  pose proof (Z.mod_pos_bound dt ticks_per_day Hpos) as Hb.
  split; intros H; nia.
Qed.

Lemma ge_start_of_day (dt : datetime) (d : date) :
  combine d time_min <= dt <-> d <= date_of dt.
Proof.
  unfold combine, time_min, date_of.
  pose proof ticks_per_day_pos as Hpos.
  pose proof (Z.div_mod dt ticks_per_day ltac:(lia)) as Hdm.
  pose proof (Z.mod_pos_bound dt ticks_per_day Hpos) as Hb.
  split; intros H; nia.
Qed.

Lemma within_day (dt : datetime) (d : date) :
  combine d time_min <= dt /\ dt <= combine d time_max <-> date_of dt = d.
Proof.
  rewrite le_end_of_day, ge_start_of_day. lia.
Qed.

(** ** Identifiers and lookups *)

Lemma ObjectId_eqb_eq (a b : ObjectId.t) : ObjectId.eqb a b = true <-> a = b.
Proof.
  destruct a as [x], b as [y]. unfold ObjectId.eqb. simpl.
  rewrite String.eqb_eq. split; intros H; [now subst | now inversion H].
Qed.

Lemma ObjectId_eqb_refl (a : ObjectId.t) : ObjectId.eqb a a = true.
Proof. now apply ObjectId_eqb_eq. Qed.

Lemma ObjectId_is_valid_false (s : string) :
  ObjectId.is_valid s = false -> ObjectId.new s = Raise (InvalidId s).
Proof.
  unfold ObjectId.is_valid, ObjectId.new.
  destruct (_ && _); [discriminate | reflexivity].
Qed.

Lemma ObjectId_is_valid_true (s : string) :
  ObjectId.is_valid s = true -> exists o, ObjectId.new s = Ok o.
Proof.
  unfold ObjectId.is_valid. destruct (ObjectId.new s); [eauto | discriminate].
Qed.

Lemma matches_by_id (i : ObjectId.t) (d : ObjectId.t * Allocation) :
  matches (by_id i) d = ObjectId.eqb (fst d) i.
Proof.
  unfold matches, by_id. simpl. now rewrite !andb_true_r.
Qed.

Ltac run :=
  unfold bind, ret, raise, lift, try_except, allocations_find_one,
    allocations_insert_one, allocations_update_one, allocations_delete_one,
    allocations_find, allocations_aggregate_vehicle_ids, vehicles_find_one,
    vehicles_find_all, vehicles_insert_one;
  cbn [query_encodable q_allocation_date by_id encodable opt_encodable
       fst snd andb].

(** ** Creation: the date guard *)

(** C5. [create_allocation] raises the past-date error exactly when the
    date portion of the requested allocation date is strictly earlier than
    the current date, whatever the other fields and the store are. *)
Theorem create_allocation_invalid_date_iff
    (inserted_id : ObjectId.t) (now_check now_created now_updated : datetime)
    (allocation : AllocationCreate) (db : Db) :
  fst (create_allocation inserted_id now_check now_created now_updated
         allocation db) = Raise InvalidDate
  <-> date_of (ac_allocation_date allocation) < date_of now_check.
Proof.
  unfold create_allocation.
  destruct (Z.ltb_spec (date_of (ac_allocation_date allocation))
              (date_of now_check)) as [Hlt | Hge].
  - run. split; [intros _; exact Hlt | reflexivity].
  - split; [| lia]. run.
    destruct (find_one _ (allocations db)); cbn; [discriminate |].
    unfold insert_one. destruct (has_id _ _); cbn; [discriminate |].
    destruct (find _ _); cbn; discriminate.
Qed.

(** ** Creation: the conflict check *)

Lemma status_ne_cancelled (st : AllocationStatus) :
  status_test st (StatusNe "cancelled") = true <-> st <> CANCELLED.
Proof.
  destruct st; cbn; split; intros H; try reflexivity; try discriminate.
  now elim H.
Qed.

Lemma matches_conflict_query (v : string) (dt : datetime)
    (d : ObjectId.t * Allocation) :
  matches {| q__id := None; q_employee_id := None; q_vehicle_id := Some v;
             q_status := Some (StatusNe "cancelled");
             q_allocation_date := Some (DateIs (PyDatetime dt)) |} d = true
  <-> vehicle_id (snd d) = v /\ allocation_date (snd d) = dt
      /\ status (snd d) <> CANCELLED.
Proof.
  unfold matches. cbn [q__id q_employee_id q_vehicle_id q_status
                       q_allocation_date opt_test date_test].
  rewrite !andb_true_iff, String.eqb_eq, Z.eqb_eq, status_ne_cancelled.
  tauto.
Qed.

(** Past the date guard, the conflict error is raised exactly when the
    lookup finds a document: same vehicle reference, same stored instant,
    status other than cancelled. *)
Lemma create_allocation_conflict_exact
    (inserted_id : ObjectId.t) (now_check now_created now_updated : datetime)
    (allocation : AllocationCreate) (db : Db)
    (Hdate : date_of now_check <= date_of (ac_allocation_date allocation)) :
  fst (create_allocation inserted_id now_check now_created now_updated
         allocation db) = Raise Conflict
  <-> exists d, In d (allocations db)
        /\ vehicle_id (snd d) = ac_vehicle_id allocation
        /\ allocation_date (snd d) = ac_allocation_date allocation
        /\ status (snd d) <> CANCELLED.
Proof.
  unfold create_allocation.
  destruct (Z.ltb_spec (date_of (ac_allocation_date allocation))
              (date_of now_check)) as [Hlt | _]; [lia |].
  run. unfold find_one.
  destruct (find _ (allocations db)) as [d |] eqn:Hfind; cbn.
  - split; [intros _ | reflexivity].
    apply find_some in Hfind. destruct Hfind as [Hin Hm].
    exists d. split; [exact Hin | now apply matches_conflict_query].
  - split.
    + unfold insert_one, Conflict.
      destruct (has_id _ _); cbn; [intros Habs; discriminate Habs |].
      destruct (find (matches (by_id inserted_id)) _); cbn;
        intros Habs; discriminate Habs.
    + intros [d [Hin Hd]]. apply matches_conflict_query in Hd.
      rewrite (find_none _ _ Hfind d Hin) in Hd. discriminate.
Qed.

Lemma find_inserted (i : ObjectId.t) (f : Allocation)
    (c : collection Allocation) :
  has_id c i = false ->
  find (matches (by_id i)) (c ++ [(i, f)]) = Some (i, f).
Proof.
  unfold has_id. induction c as [| d c IH]; cbn [existsb app find].
  - intros _. rewrite matches_by_id. cbn [fst].
    now rewrite ObjectId_eqb_refl.
  - intros H. apply orb_false_iff in H. destruct H as [Hd Hc].
    rewrite matches_by_id, Hd. now apply IH.
Qed.

(** C1, as the code has it.  For a request that passes the date guard:
    when the store holds an allocation with the same vehicle reference and
    the same [allocation_date] whose status is not cancelled,
    [create_allocation] raises the conflict error (HTTP 401) and leaves the
    store as it was; when every stored allocation of that vehicle on that
    calendar day is cancelled (or there is none), it raises no conflict
    and, the inserted identifier being new, stores and returns the
    allocation with status allocated. *)
Theorem create_allocation_conflict
    (inserted_id : ObjectId.t) (now_check now_created now_updated : datetime)
    (allocation : AllocationCreate) (db : Db)
    (Hdate : date_of now_check <= date_of (ac_allocation_date allocation)) :
  ((exists d, In d (allocations db)
      /\ vehicle_id (snd d) = ac_vehicle_id allocation
      /\ allocation_date (snd d) = ac_allocation_date allocation
      /\ status (snd d) <> CANCELLED) ->
   create_allocation inserted_id now_check now_created now_updated
     allocation db = (Raise Conflict, db))
  /\ ((forall d, In d (allocations db) ->
         vehicle_id (snd d) = ac_vehicle_id allocation ->
         date_of (allocation_date (snd d))
         = date_of (ac_allocation_date allocation) ->
         status (snd d) = CANCELLED) ->
      fst (create_allocation inserted_id now_check now_created now_updated
             allocation db) <> Raise Conflict
      /\ (has_id (allocations db) inserted_id = false ->
          exists a,
            create_allocation inserted_id now_check now_created now_updated
              allocation db
            = (Ok (ObjectId.str inserted_id, a),
               {| allocations := allocations db ++ [(inserted_id, a)];
                  vehicles := vehicles db |})
            /\ status a = ALLOCATED
            /\ vehicle_id a = ac_vehicle_id allocation
            /\ allocation_date a = ac_allocation_date allocation)).
Proof.
  pose proof (create_allocation_conflict_exact inserted_id now_check
                now_created now_updated allocation db Hdate) as Hexact.
  assert (Hnone : fst (create_allocation inserted_id now_check now_created
                         now_updated allocation db) <> Raise Conflict ->
                  find (matches
                          {| q__id := None; q_employee_id := None;
                             q_vehicle_id := Some (ac_vehicle_id allocation);
                             q_status := Some (StatusNe "cancelled");
                             q_allocation_date :=
                               Some (DateIs (PyDatetime
                                       (ac_allocation_date allocation))) |})
                       (allocations db) = None).
  { intros Hno. destruct (find _ (allocations db)) as [d |] eqn:Hfind;
      [| reflexivity].
    elim Hno. apply Hexact. apply find_some in Hfind.
    destruct Hfind as [Hin Hm]. exists d.
    split; [exact Hin | now apply matches_conflict_query]. }
  split.
  - intros Hex. apply Hexact in Hex.
    destruct (create_allocation inserted_id now_check now_created
                now_updated allocation db) as [r db'] eqn:Hrun.
    cbn [fst] in Hex. subst r. f_equal.
    revert Hrun. unfold create_allocation.
    destruct (Z.ltb_spec (date_of (ac_allocation_date allocation))
                (date_of now_check)) as [Hlt | _]; [lia |].
    run. unfold find_one.
    destruct (find _ (allocations db)); cbn.
    + intros Hrun. now inversion Hrun.
    + unfold insert_one. destruct (has_id _ _); cbn;
        [intros Hrun; now inversion Hrun |].
      destruct (find (matches (by_id inserted_id)) _); cbn;
        intros Hrun; discriminate Hrun.
  - intros Hall.
    assert (Hno : fst (create_allocation inserted_id now_check now_created
                         now_updated allocation db) <> Raise Conflict).
    { intros Hc. apply Hexact in Hc.
      destruct Hc as (d & Hin & Hv & Hd & Hst).
      apply Hst, (Hall d Hin Hv). now rewrite Hd. }
    split; [exact Hno |].
    intros Hfresh. specialize (Hnone Hno).
    eexists. split.
    + unfold create_allocation.
      destruct (Z.ltb_spec (date_of (ac_allocation_date allocation))
                  (date_of now_check)) as [Hlt | _]; [lia |].
      run. unfold find_one. rewrite Hnone. cbn.
      unfold insert_one. rewrite Hfresh. cbn.
      rewrite (find_inserted _ _ _ Hfresh). reflexivity.
    + cbn. repeat split.
Qed.

Lemma create_allocation_conflict_witness :
  create_allocation oid_b (day 9) (day 9) (day 9)
    (sample_request "v1" (day 10 + 43200000)) db_one
    = (Raise Conflict, db_one)
  /\ fst (create_allocation oid_b (day 9) (day 9) (day 9)
            (sample_request "v1" (day 10 + 43200000)) db_cancelled)
     <> Raise Conflict.
Proof.
  split.
  - apply (proj1 (create_allocation_conflict oid_b (day 9) (day 9) (day 9)
                    (sample_request "v1" (day 10 + 43200000)) db_one
                    ltac:(vm_compute; discriminate))).
    exists (oid_a, sample_allocation "v1" (day 10 + 43200000) ALLOCATED).
    cbn. repeat split; auto. discriminate.
  - apply (proj2 (create_allocation_conflict oid_b (day 9) (day 9) (day 9)
                    (sample_request "v1" (day 10 + 43200000)) db_cancelled
                    ltac:(vm_compute; discriminate))).
    intros d [<- | []] _ _. reflexivity.
Defined.

(** The lookup compares stored instants, not calendar days: with [v1]
    allocated at noon of day 10, a request for [v1] at 13:00 of day 10 is
    accepted. *)
Lemma create_allocation_same_day_other_hour :
  exists r db',
    create_allocation oid_b (day 9) (day 9) (day 9)
      (sample_request "v1" (day 10 + 46800000)) db_one = (Ok r, db')
    /\ map (fun d => (vehicle_id (snd d), date_of (allocation_date (snd d)),
                      status (snd d))) (allocations db')
       = [("v1", 10, ALLOCATED); ("v1", 10, ALLOCATED)].
Proof.
  do 2 eexists. split; [vm_compute; reflexivity |].
  vm_compute. reflexivity.
Qed.

(** C1, as stated, fails: with an allocation of [v1] stored for noon of
    day 10 and not cancelled, a request for [v1] at that same instant made
    on day 12 is answered with the past-date error, not with the conflict
    error. *)
Lemma create_allocation_conflict_past_date :
  (exists d, In d (allocations db_one)
     /\ vehicle_id (snd d) = "v1"
     /\ allocation_date (snd d) = day 10 + 43200000
     /\ status (snd d) <> CANCELLED)
  /\ fst (create_allocation oid_b (day 12) (day 12) (day 12)
            (sample_request "v1" (day 10 + 43200000)) db_one)
     = Raise InvalidDate
  /\ fst (create_allocation oid_b (day 12) (day 12) (day 12)
            (sample_request "v1" (day 10 + 43200000)) db_one)
     <> Raise Conflict.
Proof.
  split.
  - exists (oid_a, sample_allocation "v1" (day 10 + 43200000) ALLOCATED).
    cbn. repeat split; auto. discriminate.
  - split; [reflexivity | vm_compute; discriminate].
Qed.

(** ** Malformed identifiers *)

(** C10. For an identifier string the constructor rejects,
    [update_allocation] and [delete_allocation] end with the constructor's
    own unhandled exception, before any lookup and with the store
    untouched, hence with neither the not-found nor the invalid-identifier
    error; [get_allocation] validates first and raises the
    invalid-identifier error. *)
Theorem malformed_identifier
    (today : date) (now : datetime) (allocation_id : string)
    (allocation_update : AllocationUpdate) (db : Db)
    (Hbad : ObjectId.is_valid allocation_id = false) :
  update_allocation today now allocation_id allocation_update db
    = (Raise (InvalidId allocation_id), db)
  /\ delete_allocation today allocation_id db
    = (Raise (InvalidId allocation_id), db)
  /\ InvalidId allocation_id <> NotFound
  /\ InvalidId allocation_id <> InvalidIdentifier
  /\ get_allocation allocation_id db = (Raise InvalidIdentifier, db).
Proof.
  pose proof (ObjectId_is_valid_false _ Hbad) as Hnew.
  unfold update_allocation, delete_allocation, get_allocation.
  run. rewrite Hnew, Hbad. cbn.
  repeat split; discriminate.
Qed.

Lemma malformed_identifier_witness :
  update_allocation 3 (day 3) "invalid_id"
      {| au_purpose := Unset; au_status := Unset |} db_one
    = (Raise (InvalidId "invalid_id"), db_one)
  /\ delete_allocation 3 "invalid_id" db_one
    = (Raise (InvalidId "invalid_id"), db_one)
  /\ InvalidId "invalid_id" <> NotFound
  /\ InvalidId "invalid_id" <> InvalidIdentifier
  /\ get_allocation "invalid_id" db_one = (Raise InvalidIdentifier, db_one).
Proof.
  apply (malformed_identifier 3 (day 3) "invalid_id"
           {| au_purpose := Unset; au_status := Unset |} db_one).
  reflexivity.
Defined.

(** ** Update and delete: lookups after a write *)

Lemma find_by_id_fst (i : ObjectId.t) (c : collection Allocation)
    (d : ObjectId.t * Allocation) :
  find (matches (by_id i)) c = Some d -> fst d = i.
Proof.
  intros H. apply find_some in H. destruct H as [_ H].
  rewrite matches_by_id in H. now apply ObjectId_eqb_eq.
Qed.

Lemma find_update_same (i : ObjectId.t) (g : Allocation -> Allocation)
    (c : collection Allocation) :
  find (matches (by_id i)) (update_one (matches (by_id i)) g c)
  = option_map (fun d => (fst d, g (snd d))) (find (matches (by_id i)) c).
Proof.
  induction c as [| d c IH]; [reflexivity |].
  cbn [update_one find].
  destruct (matches (by_id i) d) eqn:Hm.
  - cbn [find]. rewrite matches_by_id in *. cbn [fst]. now rewrite Hm.
  - cbn [find]. now rewrite Hm.
Qed.

Lemma find_update_other (i j : ObjectId.t) (g : Allocation -> Allocation)
    (c : collection Allocation) :
  i <> j ->
  find (matches (by_id j)) (update_one (matches (by_id i)) g c)
  = find (matches (by_id j)) c.
Proof.
  intros Hij. induction c as [| d c IH]; [reflexivity |].
  cbn [update_one find].
  destruct (matches (by_id i) d) eqn:Hm.
  - cbn [find]. rewrite !matches_by_id in *. cbn [fst].
    apply ObjectId_eqb_eq in Hm.
    destruct (ObjectId.eqb (fst d) j) eqn:Hj; [| reflexivity].
    apply ObjectId_eqb_eq in Hj. congruence.
  - cbn [find]. now rewrite IH.
Qed.

Lemma dollar_set_update_data (u : AllocationUpdate) (now : datetime)
    (a : Allocation) :
  dollar_set (update_data u now) a
  = {| employee_id := employee_id a;
       vehicle_id := vehicle_id a;
       allocation_date := allocation_date a;
       purpose := match au_purpose u with
                  | Supplied (Some p) => Some p
                  | _ => purpose a
                  end;
       status := match au_status u with
                 | Supplied (Some s) => s
                 | _ => status a
                 end;
       created_at := created_at a;
       updated_at := now |}.
Proof.
  destruct u as [[| [p |]] [| [s |]]]; reflexivity.
Qed.

(** The outcome of [update_allocation] on an allocation that exists. *)
Lemma update_allocation_existing
    (today : date) (now : datetime) (allocation_id : string)
    (allocation_update : AllocationUpdate) (db : Db)
    (oid : ObjectId.t) (a : Allocation)
    (Hid : ObjectId.new allocation_id = Ok oid)
    (Hfind : find_one (matches (by_id oid)) (allocations db) = Some (oid, a)) :
  update_allocation today now allocation_id allocation_update db
  = if date_of (allocation_date a) <=? today
    then (Raise UpdateWindowClosed, db)
    else (Ok (ObjectId.str oid,
              dollar_set (update_data allocation_update now) a),
          {| allocations :=
               update_one (matches (by_id oid))
                 (dollar_set (update_data allocation_update now))
                 (allocations db);
             vehicles := vehicles db |}).
Proof.
  unfold update_allocation. run. rewrite Hid. cbn. rewrite Hfind.
  destruct (date_of (allocation_date a) <=? today); [reflexivity |].
  cbn. unfold find_one in *. rewrite find_update_same, Hfind. reflexivity.
Qed.

(** The outcome of [delete_allocation] on an allocation that exists. *)
Lemma delete_allocation_existing
    (today : date) (allocation_id : string) (db : Db)
    (oid : ObjectId.t) (a : Allocation)
    (Hid : ObjectId.new allocation_id = Ok oid)
    (Hfind : find_one (matches (by_id oid)) (allocations db) = Some (oid, a)) :
  delete_allocation today allocation_id db
  = if allocation_date a <=? combine today time_max
    then (Raise DeleteWindowClosed, db)
    else (Ok "Allocation deleted successfully",
          {| allocations := delete_one (matches (by_id oid)) (allocations db);
             vehicles := vehicles db |}).
Proof.
  unfold delete_allocation. run. rewrite Hid. cbn -[time_max]. rewrite Hfind.
  destruct (allocation_date a <=? combine today time_max); reflexivity.
Qed.

(** Whatever the store and the identifier, the two handlers close their
    windows together. *)
Lemma update_blocked_iff_delete_blocked
    (today : date) (now : datetime) (allocation_id : string)
    (allocation_update : AllocationUpdate) (db : Db) :
  fst (update_allocation today now allocation_id allocation_update db)
    = Raise UpdateWindowClosed
  <-> fst (delete_allocation today allocation_id db)
    = Raise DeleteWindowClosed.
Proof.
  unfold update_allocation, delete_allocation. run.
  destruct (ObjectId.new allocation_id) as [oid | e] eqn:Hid; cbn -[time_max].
  - unfold find_one.
    destruct (find (matches (by_id oid)) (allocations db)) as [[i a] |]
      eqn:Hfind; cbn -[time_max].
    + destruct (Z.leb_spec (date_of (allocation_date a)) today) as [Hu | Hu];
        destruct (Z.leb_spec (allocation_date a) (combine today time_max))
          as [Hd | Hd]; cbn -[time_max].
      * split; reflexivity.
      * exfalso. pose proof (proj2 (le_end_of_day _ _) Hu). lia.
      * exfalso. pose proof (proj1 (le_end_of_day _ _) Hd). lia.
      * rewrite find_update_same, Hfind. cbn.
        split; intros Habs; discriminate Habs.
    + split; intros Habs; discriminate Habs.
  - unfold ObjectId.new in Hid. destruct (_ && _); [discriminate |].
    inversion Hid; subst. split; intros Habs; discriminate Habs.
Qed.

(** ** The update window *)

(** C4. For an allocation that exists, [update_allocation] raises the
    window-closed error exactly when the date portion of the allocation's
    date is today or earlier, and then leaves the store as it was; when the
    date is strictly later than today the update succeeds: it returns the
    allocation under its rendered identifier with the supplied non-null
    purpose and status applied, the update timestamp set to the current
    instant and the other fields as stored, and that is the document the
    store then holds under the identifier, the other documents and the
    vehicles being untouched. *)
Theorem update_allocation_window_iff
    (today : date) (now : datetime) (allocation_id : string)
    (allocation_update : AllocationUpdate) (db : Db)
    (oid : ObjectId.t) (a : Allocation)
    (Hid : ObjectId.new allocation_id = Ok oid)
    (Hfind : find_one (matches (by_id oid)) (allocations db) = Some (oid, a)) :
  (fst (update_allocation today now allocation_id allocation_update db)
     = Raise UpdateWindowClosed
   <-> date_of (allocation_date a) <= today)
  /\ (date_of (allocation_date a) <= today ->
      update_allocation today now allocation_id allocation_update db
      = (Raise UpdateWindowClosed, db))
  /\ (today < date_of (allocation_date a) ->
      exists a' db',
        update_allocation today now allocation_id allocation_update db
          = (Ok (ObjectId.str oid, a'), db')
        /\ find_one (matches (by_id oid)) (allocations db') = Some (oid, a')
        /\ purpose a' = match au_purpose allocation_update with
                        | Supplied (Some p) => Some p
                        | _ => purpose a
                        end
        /\ status a' = match au_status allocation_update with
                       | Supplied (Some s) => s
                       | _ => status a
                       end
        /\ updated_at a' = now
        /\ employee_id a' = employee_id a
        /\ vehicle_id a' = vehicle_id a
        /\ allocation_date a' = allocation_date a
        /\ created_at a' = created_at a
        /\ (forall j, j <> oid ->
              find_one (matches (by_id j)) (allocations db')
              = find_one (matches (by_id j)) (allocations db))
        /\ vehicles db' = vehicles db).
Proof.
  rewrite (update_allocation_existing today now allocation_id
             allocation_update db oid a Hid Hfind).
  destruct (Z.leb_spec (date_of (allocation_date a)) today) as [H | H].
  - split; [split; [intros _; exact H | reflexivity] |].
    split; [reflexivity | lia].
  - split; [split; [intros Habs; discriminate Habs | lia] |].
    split; [lia |]. intros _.
    eexists. eexists. split; [reflexivity |].
    cbn [allocations vehicles]. unfold find_one in *.
    rewrite find_update_same, Hfind. cbn [option_map fst snd].
    rewrite dollar_set_update_data.
    cbn. repeat split.
    intros j Hj. apply find_update_other. congruence.
Qed.

Lemma update_allocation_window_iff_witness :
  (fst (update_allocation 9 (day 9 + 5) "aaaaaaaaaaaaaaaaaaaaaaaa"
          {| au_purpose := Supplied (Some "visit"); au_status := Unset |}
          db_one) = Raise UpdateWindowClosed
   <-> date_of (day 10 + 43200000) <= 9)
  /\ (exists a' db',
        update_allocation 9 (day 9 + 5) "aaaaaaaaaaaaaaaaaaaaaaaa"
          {| au_purpose := Supplied (Some "visit"); au_status := Unset |}
          db_one = (Ok (ObjectId.str oid_a, a'), db')
        /\ find_one (matches (by_id oid_a)) (allocations db')
           = Some (oid_a, a')
        /\ purpose a' = Some "visit"
        /\ status a' = ALLOCATED
        /\ updated_at a' = day 9 + 5).
Proof.
  destruct (update_allocation_window_iff 9 (day 9 + 5)
              "aaaaaaaaaaaaaaaaaaaaaaaa"
              {| au_purpose := Supplied (Some "visit"); au_status := Unset |}
              db_one oid_a
              (sample_allocation "v1" (day 10 + 43200000) ALLOCATED)
              eq_refl eq_refl) as (Hiff & _ & Hok).
  split; [exact Hiff |].
  destruct (Hok eq_refl)
    as (a' & db' & Hrun & Hstored & Hp & Hs & Hu & _).
  exists a', db'. repeat split; assumption.
Defined.

(** C6. A successful [update_allocation] changes the purpose and the status
    only where the body supplied a non-null value, leaves the employee and
    vehicle references, the allocation date and the creation timestamp as
    they were, and sets the update timestamp to the current instant
    whatever the body held; the other documents and the vehicles are
    untouched. *)
Theorem update_allocation_frame
    (today : date) (now : datetime) (allocation_id : string)
    (allocation_update : AllocationUpdate) (db : Db)
    (oid : ObjectId.t) (a : Allocation)
    (Hid : ObjectId.new allocation_id = Ok oid)
    (Hfind : find_one (matches (by_id oid)) (allocations db) = Some (oid, a))
    (Hfuture : today < date_of (allocation_date a)) :
  exists a' db',
    update_allocation today now allocation_id allocation_update db
      = (Ok (ObjectId.str oid, a'), db')
    /\ find_one (matches (by_id oid)) (allocations db') = Some (oid, a')
    /\ employee_id a' = employee_id a
    /\ vehicle_id a' = vehicle_id a
    /\ allocation_date a' = allocation_date a
    /\ created_at a' = created_at a
    /\ purpose a' = match au_purpose allocation_update with
                    | Supplied (Some p) => Some p
                    | _ => purpose a
                    end
    /\ status a' = match au_status allocation_update with
                   | Supplied (Some s) => s
                   | _ => status a
                   end
    /\ updated_at a' = now
    /\ (forall j, j <> oid ->
          find_one (matches (by_id j)) (allocations db')
          = find_one (matches (by_id j)) (allocations db))
    /\ vehicles db' = vehicles db.
Proof.
  rewrite (update_allocation_existing today now allocation_id
             allocation_update db oid a Hid Hfind).
  destruct (Z.leb_spec (date_of (allocation_date a)) today) as [H | _];
    [lia |].
  eexists. eexists. split; [reflexivity |].
  cbn [allocations vehicles]. unfold find_one in *.
  rewrite find_update_same, Hfind. cbn [option_map fst snd].
  rewrite dollar_set_update_data.
  cbn. repeat split.
  intros j Hj. apply find_update_other. congruence.
Qed.

Lemma update_allocation_frame_witness :
  exists a' db',
    update_allocation 9 (day 9 + 5) "aaaaaaaaaaaaaaaaaaaaaaaa"
      {| au_purpose := Unset; au_status := Supplied None |} db_one
      = (Ok (ObjectId.str oid_a, a'), db')
    /\ purpose a' = Some "trip" /\ status a' = ALLOCATED
    /\ updated_at a' = day 9 + 5.
Proof.
  destruct (update_allocation_frame 9 (day 9 + 5) "aaaaaaaaaaaaaaaaaaaaaaaa"
              {| au_purpose := Unset; au_status := Supplied None |} db_one
              oid_a (sample_allocation "v1" (day 10 + 43200000) ALLOCATED)
              eq_refl eq_refl eq_refl)
    as (a' & db' & Hrun & _ & _ & _ & _ & _ & Hp & Hs & Hu & _).
  exists a', db'. repeat split; assumption.
Defined.

(** ** Delete: what [delete_one] leaves *)

Lemma delete_one_length (p : ObjectId.t * Allocation -> bool)
    (c : collection Allocation) (d : ObjectId.t * Allocation) :
  find p c = Some d ->
  List.length c = S (List.length (delete_one p c)).
Proof.
  induction c as [| x c IH]; cbn [find delete_one]; [discriminate |].
  destruct (p x); [reflexivity |].
  intros H. cbn [List.length]. now rewrite (IH H).
Qed.

Lemma delete_one_incl (p : ObjectId.t * Allocation -> bool)
    (c : collection Allocation) (d : ObjectId.t * Allocation) :
  In d (delete_one p c) -> In d c.
Proof.
  induction c as [| x c IH]; cbn [delete_one]; [trivial |].
  destruct (p x); [now right |].
  intros [-> | H]; [now left | right; now apply IH].
Qed.

Lemma find_delete_same (i : ObjectId.t) (c : collection Allocation) :
  unique_ids c ->
  find (matches (by_id i)) (delete_one (matches (by_id i)) c) = None.
Proof.
  unfold unique_ids. induction c as [| x c IH]; [reflexivity |].
  cbn [map]. intros Hnd. inversion Hnd as [| ? ? Hx Hc]; subst.
  cbn [delete_one]. destruct (matches (by_id i) x) eqn:Hm.
  - rewrite matches_by_id in Hm. apply ObjectId_eqb_eq in Hm.
    destruct (find (matches (by_id i)) c) as [d |] eqn:Hfind; [| reflexivity].
    pose proof (find_by_id_fst _ _ _ Hfind) as Hfst.
    apply find_some in Hfind. destruct Hfind as [Hin _].
    elim Hx. rewrite Hm, <- Hfst. now apply in_map.
  - cbn [find]. rewrite Hm. now apply IH.
Qed.

Lemma find_delete_other (i j : ObjectId.t) (c : collection Allocation) :
  i <> j ->
  find (matches (by_id j)) (delete_one (matches (by_id i)) c)
  = find (matches (by_id j)) c.
Proof.
  intros Hij. induction c as [| x c IH]; [reflexivity |].
  cbn [delete_one find]. destruct (matches (by_id i) x) eqn:Hm.
  - rewrite matches_by_id in Hm. apply ObjectId_eqb_eq in Hm.
    destruct (matches (by_id j) x) eqn:Hj; [| reflexivity].
    rewrite matches_by_id in Hj. apply ObjectId_eqb_eq in Hj. congruence.
  - cbn [find]. now rewrite IH.
Qed.

(** ** The delete window *)

(** C2, as the code has it.  For an allocation that exists,
    [delete_allocation] raises the window-closed error exactly when the
    stored instant is at or before the last instant of the current day,
    which is exactly when the allocation's date is today or earlier, and
    then leaves the store as it was; so it is blocked exactly when
    [update_allocation] is.  When the date is strictly later than today it
    deletes: it returns the confirmation message and the store has exactly
    one allocation fewer, every remaining one stored before, none left
    under the identifier when the identifiers are distinct, the documents
    under other identifiers and the vehicles untouched. *)
Theorem delete_allocation_window_iff
    (today : date) (now : datetime) (allocation_id : string)
    (allocation_update : AllocationUpdate) (db : Db)
    (oid : ObjectId.t) (a : Allocation)
    (Hid : ObjectId.new allocation_id = Ok oid)
    (Hfind : find_one (matches (by_id oid)) (allocations db) = Some (oid, a)) :
  (fst (delete_allocation today allocation_id db) = Raise DeleteWindowClosed
   <-> allocation_date a <= combine today time_max)
  /\ (fst (delete_allocation today allocation_id db) = Raise DeleteWindowClosed
      <-> date_of (allocation_date a) <= today)
  /\ (fst (update_allocation today now allocation_id allocation_update db)
        = Raise UpdateWindowClosed
      <-> fst (delete_allocation today allocation_id db)
        = Raise DeleteWindowClosed)
  /\ (date_of (allocation_date a) <= today ->
      delete_allocation today allocation_id db
      = (Raise DeleteWindowClosed, db))
  /\ (today < date_of (allocation_date a) ->
      exists db',
        delete_allocation today allocation_id db
          = (Ok "Allocation deleted successfully", db')
        /\ vehicles db' = vehicles db
        /\ List.length (allocations db)
           = S (List.length (allocations db'))
        /\ (forall d, In d (allocations db') -> In d (allocations db))
        /\ (unique_ids (allocations db) ->
            find_one (matches (by_id oid)) (allocations db') = None)
        /\ (forall j, j <> oid ->
              find_one (matches (by_id j)) (allocations db')
              = find_one (matches (by_id j)) (allocations db))).
Proof.
  split; [| split; [| split; [| split]]].
  - rewrite (delete_allocation_existing today allocation_id db oid a Hid Hfind).
    destruct (Z.leb_spec (allocation_date a) (combine today time_max)).
    + split; [intros _; assumption | reflexivity].
    + split; [intros Habs; discriminate Habs | lia].
  - rewrite (delete_allocation_existing today allocation_id db oid a Hid Hfind).
    rewrite <- le_end_of_day.
    destruct (Z.leb_spec (allocation_date a) (combine today time_max)).
    + split; [intros _; assumption | reflexivity].
    + split; [intros Habs; discriminate Habs | lia].
  - apply update_blocked_iff_delete_blocked.
  - intros Hpast.
    rewrite (delete_allocation_existing today allocation_id db oid a Hid Hfind).
    destruct (Z.leb_spec (allocation_date a) (combine today time_max))
      as [_ | H]; [reflexivity |].
    pose proof (proj2 (le_end_of_day _ _) Hpast). lia.
  - intros Hfuture.
    rewrite (delete_allocation_existing today allocation_id db oid a Hid Hfind).
    destruct (Z.leb_spec (allocation_date a) (combine today time_max))
      as [H | _]; [apply le_end_of_day in H; lia |].
    eexists. split; [reflexivity |].
    cbn [allocations vehicles]. unfold find_one in *.
    split; [reflexivity |].
    split; [exact (delete_one_length _ _ _ Hfind) |].
    split; [intros d; apply delete_one_incl |].
    split; [intros Hkey; now apply find_delete_same |].
    intros j Hj. apply find_delete_other. congruence.
Qed.

Lemma delete_allocation_window_iff_witness :
  (fst (delete_allocation 9 "aaaaaaaaaaaaaaaaaaaaaaaa" db_one)
     = Raise DeleteWindowClosed
   <-> date_of (day 10 + 43200000) <= 9)
  /\ (exists db',
        delete_allocation 9 "aaaaaaaaaaaaaaaaaaaaaaaa" db_one
          = (Ok "Allocation deleted successfully", db')
        /\ List.length (allocations db_one)
           = S (List.length (allocations db'))
        /\ find_one (matches (by_id oid_a)) (allocations db') = None).
Proof.
  destruct (delete_allocation_window_iff 9 (day 9)
              "aaaaaaaaaaaaaaaaaaaaaaaa"
              {| au_purpose := Unset; au_status := Unset |}
              db_one oid_a
              (sample_allocation "v1" (day 10 + 43200000) ALLOCATED)
              eq_refl eq_refl) as (_ & Hiff & _ & _ & Hok).
  split; [exact Hiff |].
  destruct (Hok eq_refl) as (db' & Hrun & _ & Hlen & _ & Hgone & _).
  exists db'. split; [exact Hrun |]. split; [exact Hlen |].
  apply Hgone. unfold unique_ids. cbn. repeat constructor. intros [].
Defined.

(** C2, as stated, fails.  With an allocation stored for noon of day 10
    and the current instant 09:00 of day 10, the current instant is before
    the end of the allocation's day and the deletion is refused all the
    same; and there is no store, identifier and current day at which the
    update is refused while the deletion goes through. *)
Lemma delete_window_not_later_than_update :
  day 10 + 32400000 < combine (date_of (day 10 + 43200000)) time_max
  /\ fst (delete_allocation (date_of (day 10 + 32400000))
            "aaaaaaaaaaaaaaaaaaaaaaaa" db_one) = Raise DeleteWindowClosed
  /\ ~ (exists today now allocation_id allocation_update db message,
          fst (update_allocation today now allocation_id allocation_update db)
            = Raise UpdateWindowClosed
          /\ fst (delete_allocation today allocation_id db) = Ok message).
Proof.
  split; [reflexivity | split; [reflexivity |]].
  intros (today & now & allocation_id & allocation_update & db & message
          & Hu & Hd).
  apply update_blocked_iff_delete_blocked in Hu.
  rewrite Hu in Hd. discriminate Hd.
Qed.

(** ** Availability *)

Lemma matches_day_query (d : date) (x : ObjectId.t * Allocation) :
  matches (day_query d) x = true
  <-> status (snd x) <> CANCELLED /\ date_of (allocation_date (snd x)) = d.
Proof.
  unfold matches, day_query.
  cbn [q__id q_employee_id q_vehicle_id q_status q_allocation_date opt_test
       date_test gte_test lte_test].
  rewrite !andb_true_iff, !Z.leb_le, status_ne_cancelled, <- within_day.
  tauto.
Qed.

Lemma set_mem_In (x : string) (s : list string) :
  set_mem x s = true <-> In x s.
Proof.
  unfold set_mem. rewrite existsb_exists. split.
  - intros [y [Hin Heq]]. apply String.eqb_eq in Heq. now subst.
  - intros Hin. exists x. split; [exact Hin | apply String.eqb_refl].
Qed.

(** The set of allocated vehicle references the handler works with. *)
Lemma allocated_set_In (db : Db) (d : date) (v : string) :
  In v (nodup string_dec
          (map (fun x => vehicle_id (snd x))
             (filter (matches (day_query d)) (allocations db))))
  <-> allocated_on db d v.
Proof.
  rewrite nodup_In, in_map_iff. unfold allocated_on. split.
  - intros [x [Hv Hx]]. apply filter_In in Hx. destruct Hx as [Hin Hm].
    apply matches_day_query in Hm. exists x. tauto.
  - intros [x (Hin & Hv & Hst & Hd)]. exists x. split; [exact Hv |].
    apply filter_In. split; [exact Hin |]. apply matches_day_query. tauto.
Qed.

Lemma check_vehicle_availability_eq (check_date : date) (db : Db) :
  check_vehicle_availability check_date db
  = (Ok (let s := nodup string_dec
                    (map (fun x => vehicle_id (snd x))
                       (filter (matches (day_query check_date))
                          (allocations db))) in
         let available :=
           filter (fun v => negb (set_mem (fst v) s))
                  (map render_id (vehicles db)) in
         {| av_date := check_date;
            total_vehicles := List.length (map render_id (vehicles db));
            allocated_vehicles := List.length s;
            available_vehicles := List.length available;
            av_vehicles := available |}), db).
Proof.
  unfold check_vehicle_availability, try_except, bind,
    allocations_aggregate_vehicle_ids, vehicles_find_all, ret.
  change (query_encodable (day_query check_date)) with true. cbv iota.
  destruct (filter (matches (day_query check_date)) (allocations db))
    as [| x l]; cbv beta iota zeta.
  - reflexivity.
  - unfold py_set.
    rewrite (nodup_fixed_point string_dec (NoDup_nodup string_dec _)).
    reflexivity.
Qed.

Lemma length_filter_subset (s l : list string) :
  NoDup s -> NoDup l -> (forall x, In x s -> In x l) ->
  List.length (filter (fun x => set_mem x s) l) = List.length s.
Proof.
  intros Hs Hl Hsub. apply Permutation_length, NoDup_Permutation.
  - now apply NoDup_filter.
  - exact Hs.
  - intros x. rewrite filter_In, set_mem_In. split; [tauto |].
    intros H. split; [now apply Hsub | exact H].
Qed.

Lemma ObjectId_str_inj (a b : ObjectId.t) :
  ObjectId.str a = ObjectId.str b -> a = b.
Proof.
  destruct a, b. unfold ObjectId.str. cbn. now intros ->.
Qed.

Lemma NoDup_rendered_ids (c : collection Vehicle) :
  NoDup (map fst c) -> NoDup (map fst (map render_id c)).
Proof.
  intros H. rewrite map_map. cbn [render_id fst].
  rewrite <- (map_map fst ObjectId.str).
  apply Injective_map_NoDup; [| exact H].
  intros a b. apply ObjectId_str_inj.
Qed.

Lemma available_count (s : list string) (l : list (with_id Vehicle)) :
  NoDup s -> NoDup (map fst l) -> (forall x, In x s -> In x (map fst l)) ->
  (List.length (filter (fun v => negb (set_mem (fst v) s)) l)
   + List.length s = List.length l)%nat.
Proof.
  intros Hs Hl Hsub.
  rewrite <- (length_filter_subset s (map fst l) Hs Hl Hsub).
  rewrite (filter_map_swap (fun x => set_mem x s) fst l), length_map.
  rewrite Nat.add_comm.
  apply (filter_length (fun v => set_mem (fst v) s) l).
Qed.

(** C9. [check_vehicle_availability d] returns the stored vehicles, in
    their stored order, whose rendered identifier is not in the set of
    vehicle references that have a non-cancelled allocation on calendar day
    [d]; no vehicle with such an allocation is in the returned list; and
    when the stored vehicles have distinct identifiers (the store's key)
    and every allocated reference is the identifier of a stored vehicle,
    the available and allocated counts add up to the total. *)
Theorem check_vehicle_availability_spec (check_date : date) (db : Db) :
  exists r s,
    check_vehicle_availability check_date db = (Ok r, db)
    /\ NoDup s
    /\ (forall v, In v s <-> allocated_on db check_date v)
    /\ av_vehicles r
       = filter (fun v => negb (set_mem (fst v) s))
                (map render_id (vehicles db))
    /\ (forall v, In v (av_vehicles r) ->
          In v (map render_id (vehicles db))
          /\ ~ allocated_on db check_date (fst v))
    /\ (forall d, In d (vehicles db) ->
          allocated_on db check_date (ObjectId.str (fst d)) ->
          ~ In (render_id d) (av_vehicles r))
    /\ av_date r = check_date
    /\ total_vehicles r = List.length (vehicles db)
    /\ allocated_vehicles r = List.length s
    /\ available_vehicles r = List.length (av_vehicles r)
    /\ (NoDup (map fst (vehicles db)) ->
        (forall v, allocated_on db check_date v ->
           exists d, In d (vehicles db) /\ ObjectId.str (fst d) = v) ->
        (available_vehicles r + allocated_vehicles r
         = total_vehicles r)%nat).
Proof.
  rewrite check_vehicle_availability_eq. cbv zeta.
  set (s := nodup string_dec
              (map (fun x => vehicle_id (snd x))
                 (filter (matches (day_query check_date)) (allocations db)))).
  assert (Hs : forall v, In v s <-> allocated_on db check_date v)
    by (intros v; apply allocated_set_In).
  assert (Hnd : NoDup s) by apply NoDup_nodup.
  eexists. exists s. split; [reflexivity |].
  cbn [av_vehicles av_date total_vehicles allocated_vehicles
       available_vehicles].
  split; [exact Hnd |]. split; [exact Hs |]. split; [reflexivity |].
  split.
  { intros v Hv. apply filter_In in Hv. destruct Hv as [Hin Hm].
    split; [exact Hin |]. rewrite <- Hs, <- set_mem_In.
    destruct (set_mem (fst v) s); discriminate. }
  split.
  { intros d _ Halloc Hin. apply filter_In in Hin. destruct Hin as [_ Hm].
    apply Hs, set_mem_In in Halloc. cbn [render_id fst] in Hm.
    rewrite Halloc in Hm. discriminate. }
  split; [reflexivity |]. split; [apply length_map |].
  split; [reflexivity |]. split; [reflexivity |].
  intros Hkey Hexists.
  apply available_count; [exact Hnd | now apply NoDup_rendered_ids |].
  intros x Hx. apply Hs, Hexists in Hx. destruct Hx as [d [Hin Hd]].
  apply in_map_iff. exists (render_id d). split; [exact Hd |].
  now apply in_map.
Qed.

Lemma check_vehicle_availability_spec_witness :
  exists r,
    check_vehicle_availability 10 db_fleet = (Ok r, db_fleet)
    /\ (available_vehicles r + allocated_vehicles r = total_vehicles r)%nat.
Proof.
  destruct (check_vehicle_availability_spec 10 db_fleet)
    as (r & s & Hrun & _ & _ & _ & _ & _ & _ & _ & _ & _ & Hcount).
  exists r. split; [exact Hrun |]. apply Hcount.
  - cbn. repeat constructor; cbn; intuition discriminate.
  - intros v (x & Hin & Hv & _). destruct Hin as [<- | []].
    exists (oid_a, sample_vehicle (BString "d1")).
    split; [left; reflexivity | exact Hv].
Defined.

(** ** Listing: order and paging *)

Lemma insert_desc_perm (d : ObjectId.t * Allocation)
    (l : list (ObjectId.t * Allocation)) :
  Permutation (insert_desc d l) (d :: l).
Proof.
  induction l as [| x l IH]; cbn [insert_desc]; [reflexivity |].
  destruct (allocation_date (snd x) <=? allocation_date (snd d));
    [reflexivity |].
  rewrite IH. apply perm_swap.
Qed.

Lemma sort_desc_perm (l : list (ObjectId.t * Allocation)) :
  Permutation (sort_desc l) l.
Proof.
  induction l as [| x l IH]; [reflexivity |].
  cbn [sort_desc fold_right]. fold (sort_desc l).
  rewrite insert_desc_perm. now constructor.
Qed.

Lemma insert_desc_sorted (d : ObjectId.t * Allocation)
    (l : list (ObjectId.t * Allocation)) :
  StronglySorted date_desc l -> StronglySorted date_desc (insert_desc d l).
Proof.
  induction 1 as [| x l Hl IH Hx]; cbn [insert_desc].
  - constructor; constructor.
  - destruct (Z.leb_spec (allocation_date (snd x)) (allocation_date (snd d)))
      as [Hle | Hgt].
    + constructor; [now constructor |].
      constructor; [exact Hle |].
      eapply Forall_impl; [| exact Hx].
      unfold date_desc. intros y Hy. lia.
    + constructor; [exact IH |].
      eapply Permutation_Forall; [symmetry; apply insert_desc_perm |].
      constructor; [unfold date_desc; lia | exact Hx].
Qed.

Lemma sort_desc_sorted (l : list (ObjectId.t * Allocation)) :
  StronglySorted date_desc (sort_desc l).
Proof.
  induction l as [| x l IH]; [constructor |].
  cbn [sort_desc fold_right]. fold (sort_desc l).
  now apply insert_desc_sorted.
Qed.

Lemma cursor_limit_pos {A : Type} (n : Z) (l : list A) :
  1 <= n -> cursor_limit n l = firstn (Z.to_nat n) l.
Proof.
  intros Hn. unfold cursor_limit.
  destruct (Z.eqb_spec n 0) as [-> | _]; [lia |].
  now rewrite Z.abs_eq by lia.
Qed.


Lemma Query_skip (raw : option Z) :
  (forall s, raw = Some s -> 0 <= s) ->
  Query "skip" 0 (Some 0) None raw
  = Ok (or_default raw 0).
Proof.
  intros H. destruct raw as [s |]; [| reflexivity].
  unfold Query. cbn [opt_test].
  destruct (Z.leb_spec 0 s) as [_ | Hlt]; [reflexivity |].
  specialize (H s eq_refl). lia.
Qed.

Lemma Query_limit (raw : option Z) :
  (forall n, raw = Some n -> 1 <= n <= 100) ->
  Query "limit" 10 (Some 1) (Some 100) raw
  = Ok (or_default raw 10).
Proof.
  intros H. destruct raw as [n |]; [| reflexivity].
  unfold Query. cbn [opt_test]. specialize (H n eq_refl).
  destruct (Z.leb_spec 1 n); destruct (Z.leb_spec n 100);
    try lia; reflexivity.
Qed.


Lemma list_query_encodable (employee vehicle : option string)
    (st : option AllocationStatus) (start_date end_date : option date) :
  query_encodable (list_query employee vehicle st start_date end_date)
  = match start_date, end_date with
    | Some _, Some _ => false
    | _, _ => true
    end.
Proof.
  destruct start_date, end_date; reflexivity.
Qed.




(** ** Listing: the date filter *)

Lemma date_filter_start_only (s : date) (stored : datetime) :
  opt_test (date_filter (Some s) None) (date_test stored) = true
  <-> combine s time_min <= stored.
Proof.
  cbn [date_filter opt_test date_test gte_test].
  rewrite andb_true_r. apply Z.leb_le.
Qed.

Lemma date_filter_end_only (e : date) (stored : datetime) :
  opt_test (date_filter None (Some e)) (date_test stored) = true
  <-> stored <= combine e time_max.
Proof.
  cbn [date_filter opt_test date_test lte_test andb]. apply Z.leb_le.
Qed.

(** C8, on the code.  With only [start_date] an allocation passes the date
    filter exactly when its instant is at or after the start of that day;
    with only [end_date], exactly when it is at or before the end of that
    day; with both, the filter holds the two bare dates, the driver cannot
    encode the query and the handler ends with [InvalidDocument] instead of
    a list. *)
Theorem get_allocations_date_filter
    (employee vehicle : option string) (st : option AllocationStatus)
    (s e : date) (db : Db) :
  (forall stored,
     opt_test (q_allocation_date (list_query employee vehicle st (Some s) None))
       (date_test stored) = true
     <-> combine s time_min <= stored)
  /\ (forall stored,
        opt_test
          (q_allocation_date (list_query employee vehicle st None (Some e)))
          (date_test stored) = true
        <-> stored <= combine e time_max)
  /\ get_allocations employee vehicle st (Some s) (Some e) None None db
     = (Raise InvalidDocument, db).
Proof.
  split; [| split].
  - intros stored. apply date_filter_start_only.
  - intros stored. apply date_filter_end_only.
  - reflexivity.
Qed.

(** ** Vehicle creation *)

Lemma find_driver_identifier_none (o : ObjectId.t) (c : collection Vehicle) :
  Forall (fun d => forall o', driver_id (snd d) <> BObjectId o') c ->
  find (vehicle_matches {| vq__id := None; vq_driver_id := Some (BObjectId o) |})
       c = None.
Proof.
  induction 1 as [| d c Hd _ IH]; [reflexivity |].
  cbn [find]. rewrite IH.
  unfold vehicle_matches. cbn [vq__id vq_driver_id opt_test andb].
  destruct (driver_id (snd d)) as [| s | o'] eqn:Hdr; try reflexivity.
  now elim (Hd o').
Qed.

(** While the stored driver references are strings, which is how
    [create_vehicle] stores them, the existence check finds nothing. *)
Lemma create_vehicle_never_refuses (inserted_id : ObjectId.t)
    (now : datetime) (vehicle : VehicleBase) (db : Db) :
  Forall (fun d => forall o, driver_id (snd d) <> BObjectId o) (vehicles db) ->
  fst (create_vehicle inserted_id now vehicle db)
  <> Raise DriverAlreadyAssigned.
Proof.
  intros Hstr. unfold create_vehicle. run.
  destruct (ObjectId.new (vb_driver_id vehicle)) as [o | e] eqn:Hnew; cbn.
  - unfold find_one. rewrite (find_driver_identifier_none o _ Hstr). cbn.
    unfold insert_one. destruct (has_id _ _); cbn; [discriminate |].
    destruct (find _ _); cbn; discriminate.
  - unfold ObjectId.new in Hnew. destruct (_ && _); [discriminate |].
    inversion Hnew. discriminate.
Qed.

(** C3, on the code.  After a vehicle has been created for the driver
    [dddddddddddddddddddddddd], creating a second vehicle for the same
    driver succeeds: the check compares the identifier with the string the
    first creation stored, and the store ends up with two vehicles holding
    the same driver reference. *)
Theorem create_vehicle_same_driver_twice :
  exists r1 db1 r2 db2,
    create_vehicle oid_a (day 1)
      (sample_vehicle_request "dddddddddddddddddddddddd") empty_db
      = (Ok r1, db1)
    /\ create_vehicle oid_b (day 2)
         (sample_vehicle_request "dddddddddddddddddddddddd") db1
       = (Ok r2, db2)
    /\ map (fun d => driver_id (snd d)) (vehicles db2)
       = [BString "dddddddddddddddddddddddd";
          BString "dddddddddddddddddddddddd"].
Proof.
  do 4 eexists.
  split; [vm_compute; reflexivity |].
  split; [vm_compute; reflexivity |].
  vm_compute. reflexivity.
Qed.

(** ** The store's key *)

Lemma has_id_false {F : Type} (c : collection F) (i : ObjectId.t) :
  has_id c i = false -> ~ In i (map fst c).
Proof.
  unfold has_id. intros H Hin. apply in_map_iff in Hin.
  destruct Hin as [d [Hd Hin]].
  assert (Hex : existsb (fun d => ObjectId.eqb (fst d) i) c = true).
  { apply existsb_exists. exists d. split; [exact Hin |].
    now apply ObjectId_eqb_eq. }
  congruence.
Qed.

(** [insert_one] keeps the identifiers of a collection distinct. *)
Lemma insert_one_key {F : Type} (i : ObjectId.t) (f : F)
    (c c' : collection F) :
  NoDup (map fst c) -> insert_one i f c = Ok c' -> NoDup (map fst c').
Proof.
  unfold insert_one. intros Hnd H.
  destruct (has_id c i) eqn:Hi; [discriminate |].
  inversion H; subst. rewrite map_app. cbn [map fst].
  apply NoDup_app; [exact Hnd | repeat constructor; intros [] |].
  intros x Hx [Heq | []]. subst x. exact (has_id_false c i Hi Hx).
Qed.

(** [create_vehicle] keeps the identifiers of the vehicles distinct. *)
Lemma create_vehicle_key (inserted_id : ObjectId.t) (now : datetime)
    (vehicle : VehicleBase) (db : Db) :
  NoDup (map fst (vehicles db)) ->
  NoDup (map fst (vehicles (snd (create_vehicle inserted_id now vehicle db)))).
Proof.
  intros Hnd. unfold create_vehicle. run.
  destruct (ObjectId.new (vb_driver_id vehicle)); cbn; [| exact Hnd].
  destruct (find_one _ (vehicles db)); cbn; [exact Hnd |].
  destruct (insert_one _ _ (vehicles db)) as [c |] eqn:Hins; cbn;
    [| exact Hnd].
  unfold find_one.
  destruct (find _ c); cbn; eapply insert_one_key; eauto.
Qed.

(** * Further properties of the handlers *)

(** ** Identifiers: rendering and parsing *)

Lemma to_lower_hexdigit (c : ascii) :
  ObjectId.is_hexdigit c = true ->
  ObjectId.is_hexdigit (ObjectId.to_lower c) = true.
Proof.
  destruct c as [[] [] [] [] [] [] [] []]; vm_compute; trivial.
Qed.

Lemma to_lower_idem (c : ascii) :
  ObjectId.to_lower (ObjectId.to_lower c) = ObjectId.to_lower c.
Proof.
  destruct c as [[] [] [] [] [] [] [] []]; vm_compute; reflexivity.
Qed.

Lemma string_map_length (f : ascii -> ascii) (s : string) :
  String.length (ObjectId.string_map f s) = String.length s.
Proof.
  induction s as [| c s IH]; cbn; [reflexivity | now rewrite IH].
Qed.

Lemma string_map_lower_hex (s : string) :
  ObjectId.string_forall ObjectId.is_hexdigit s = true ->
  ObjectId.string_forall ObjectId.is_hexdigit
    (ObjectId.string_map ObjectId.to_lower s) = true.
Proof.
  induction s as [| c s IH]; cbn [ObjectId.string_forall ObjectId.string_map];
    [reflexivity |].
  rewrite !andb_true_iff. intros [Hc Hs].
  split; [now apply to_lower_hexdigit | now apply IH].
Qed.

Lemma string_map_lower_idem (s : string) :
  ObjectId.string_map ObjectId.to_lower
    (ObjectId.string_map ObjectId.to_lower s)
  = ObjectId.string_map ObjectId.to_lower s.
Proof.
  induction s as [| c s IH]; cbn [ObjectId.string_map]; [reflexivity |].
  now rewrite to_lower_idem, IH.
Qed.

(** An identifier obtained from a string parses back from its rendering. *)
Lemma ObjectId_new_str (s : string) (o : ObjectId.t) :
  ObjectId.new s = Ok o -> ObjectId.new (ObjectId.str o) = Ok o.
Proof.
  unfold ObjectId.new.
  destruct ((String.length s =? 24)%nat
            && ObjectId.string_forall ObjectId.is_hexdigit s) eqn:Hs;
    [| discriminate].
  intros H. inversion H; subst o. cbn [ObjectId.str ObjectId.hex].
  apply andb_true_iff in Hs. destruct Hs as [Hlen Hhex].
  rewrite string_map_length, Hlen, (string_map_lower_hex s Hhex).
  cbn [andb]. now rewrite string_map_lower_idem.
Qed.

(** ** The handlers, case by case *)

Lemma create_allocation_cases
    (inserted_id : ObjectId.t) (now_check now_created now_updated : datetime)
    (allocation : AllocationCreate) (db : Db) :
  create_allocation inserted_id now_check now_created now_updated
    allocation db
  = if date_of (ac_allocation_date allocation) <? date_of now_check
    then (Raise InvalidDate, db)
    else
      match find (matches (conflict_query allocation)) (allocations db) with
      | Some _ => (Raise Conflict, db)
      | None =>
          if has_id (allocations db) inserted_id
          then (Raise DuplicateKeyError, db)
          else
            (Ok (ObjectId.str inserted_id,
                 new_allocation_of allocation now_created now_updated),
             {| allocations :=
                  allocations db
                  ++ [(inserted_id,
                       new_allocation_of allocation now_created now_updated)];
                vehicles := vehicles db |})
      end.
Proof.
  unfold create_allocation, conflict_query, new_allocation_of.
  destruct (date_of (ac_allocation_date allocation) <? date_of now_check);
    [reflexivity |].
  run. unfold find_one.
  destruct (find _ (allocations db)); cbn; [reflexivity |].
  unfold insert_one.
  destruct (has_id (allocations db) inserted_id) eqn:Hfresh; cbn;
    [reflexivity |].
  now rewrite (find_inserted _ _ _ Hfresh).
Qed.

Lemma update_allocation_cases
    (today : date) (now : datetime) (allocation_id : string)
    (allocation_update : AllocationUpdate) (db : Db) :
  update_allocation today now allocation_id allocation_update db
  = match ObjectId.new allocation_id with
    | Raise e => (Raise e, db)
    | Ok oid =>
        match find (matches (by_id oid)) (allocations db) with
        | None => (Raise NotFound, db)
        | Some d =>
            if date_of (allocation_date (snd d)) <=? today
            then (Raise UpdateWindowClosed, db)
            else
              (Ok (ObjectId.str oid,
                   dollar_set (update_data allocation_update now) (snd d)),
               {| allocations :=
                    update_one (matches (by_id oid))
                      (dollar_set (update_data allocation_update now))
                      (allocations db);
                  vehicles := vehicles db |})
        end
    end.
Proof.
  destruct (ObjectId.new allocation_id) as [oid | e] eqn:Hid.
  - destruct (find (matches (by_id oid)) (allocations db)) as [d |] eqn:Hfind.
    + pose proof (find_by_id_fst _ _ _ Hfind) as Hfst.
      destruct d as [i a]. cbn [fst snd] in *. subst i.
      apply (update_allocation_existing today now allocation_id
               allocation_update db oid a Hid Hfind).
    + unfold update_allocation. run. rewrite Hid. cbn.
      unfold find_one. now rewrite Hfind.
  - unfold update_allocation. run. now rewrite Hid.
Qed.

Lemma delete_allocation_cases
    (today : date) (allocation_id : string) (db : Db) :
  delete_allocation today allocation_id db
  = match ObjectId.new allocation_id with
    | Raise e => (Raise e, db)
    | Ok oid =>
        match find (matches (by_id oid)) (allocations db) with
        | None => (Raise NotFound, db)
        | Some d =>
            if allocation_date (snd d) <=? combine today time_max
            then (Raise DeleteWindowClosed, db)
            else
              (Ok "Allocation deleted successfully",
               {| allocations :=
                    delete_one (matches (by_id oid)) (allocations db);
                  vehicles := vehicles db |})
        end
    end.
Proof.
  destruct (ObjectId.new allocation_id) as [oid | e] eqn:Hid.
  - destruct (find (matches (by_id oid)) (allocations db)) as [d |] eqn:Hfind.
    + pose proof (find_by_id_fst _ _ _ Hfind) as Hfst.
      destruct d as [i a]. cbn [fst snd] in *. subst i.
      apply (delete_allocation_existing today allocation_id db oid a
               Hid Hfind).
    + unfold delete_allocation. run. rewrite Hid. cbn.
      unfold find_one. now rewrite Hfind.
  - unfold delete_allocation. run. now rewrite Hid.
Qed.

Lemma get_allocation_cases (allocation_id : string) (db : Db) :
  get_allocation allocation_id db
  = match ObjectId.new allocation_id with
    | Raise _ => (Raise InvalidIdentifier, db)
    | Ok oid =>
        match find (matches (by_id oid)) (allocations db) with
        | None => (Raise NotFound, db)
        | Some d => (Ok (render_id d), db)
        end
    end.
Proof.
  unfold get_allocation, ObjectId.is_valid. run.
  destruct (ObjectId.new allocation_id) as [oid | e]; cbn; [| reflexivity].
  unfold find_one.
  destruct (find (matches (by_id oid)) (allocations db)); reflexivity.
Qed.

(** ** Creation: what is written *)

(** X1. [create_allocation] writes at most once: when it raises, the store
    is as it was; when it returns, the response carries the rendered
    inserted identifier and the request's fields with status allocated and
    the two timestamps, and the store is the old one with exactly that
    document appended to the allocations. *)
Theorem create_allocation_writes_once
    (inserted_id : ObjectId.t) (now_check now_created now_updated : datetime)
    (allocation : AllocationCreate) (db : Db) :
  (forall e,
     fst (create_allocation inserted_id now_check now_created now_updated
            allocation db) = Raise e ->
     snd (create_allocation inserted_id now_check now_created now_updated
            allocation db) = db)
  /\ (forall r,
        fst (create_allocation inserted_id now_check now_created now_updated
               allocation db) = Ok r ->
        r = (ObjectId.str inserted_id,
             new_allocation_of allocation now_created now_updated)
        /\ has_id (allocations db) inserted_id = false
        /\ snd (create_allocation inserted_id now_check now_created
                  now_updated allocation db)
           = {| allocations := allocations db ++ [(inserted_id, snd r)];
                vehicles := vehicles db |}).
Proof.
  rewrite create_allocation_cases.
  destruct (date_of (ac_allocation_date allocation) <? date_of now_check);
    [split; [reflexivity | intros r H; discriminate H] |].
  destruct (find _ (allocations db));
    [split; [reflexivity | intros r H; discriminate H] |].
  destruct (has_id (allocations db) inserted_id);
    [split; [reflexivity | intros r H; discriminate H] |].
  split; [intros e H; discriminate H |].
  intros r H. cbn [fst snd] in *. inversion H; subst r. auto.
Qed.

(** X2. What [create_allocation] returns can be fetched: after a successful
    creation under a well-formed identifier, [get_allocation] on the
    returned id answers with the very response of the creation and leaves
    the store alone. *)
Theorem create_then_get
    (inserted_id : ObjectId.t) (now_check now_created now_updated : datetime)
    (allocation : AllocationCreate) (db db' : Db) (r : AllocationResponse)
    (Hwf : ObjectId.new (ObjectId.str inserted_id) = Ok inserted_id)
    (Hrun : create_allocation inserted_id now_check now_created now_updated
              allocation db = (Ok r, db')) :
  get_allocation (fst r) db' = (Ok r, db').
Proof.
  rewrite create_allocation_cases in Hrun.
  destruct (date_of (ac_allocation_date allocation) <? date_of now_check);
    [discriminate Hrun |].
  destruct (find _ (allocations db)); [discriminate Hrun |].
  destruct (has_id (allocations db) inserted_id) eqn:Hfresh;
    [discriminate Hrun |].
  inversion Hrun; subst r db'. cbn [fst].
  rewrite get_allocation_cases, Hwf. cbn [allocations].
  now rewrite (find_inserted _ _ _ Hfresh).
Qed.

Lemma create_then_get_witness :
  get_allocation "bbbbbbbbbbbbbbbbbbbbbbbb"
    (snd (create_allocation oid_b (day 9) (day 9) (day 9)
            (sample_request "v2" (day 11)) db_one))
  = (fst (create_allocation oid_b (day 9) (day 9) (day 9)
            (sample_request "v2" (day 11)) db_one),
     snd (create_allocation oid_b (day 9) (day 9) (day 9)
            (sample_request "v2" (day 11)) db_one)).
Proof.
  exact (create_then_get oid_b (day 9) (day 9) (day 9)
           (sample_request "v2" (day 11)) db_one _ _ eq_refl eq_refl).
Defined.

Lemma find_app_l {A : Type} (p : A -> bool) (l l' : list A) (x : A) :
  find p l = Some x -> find p (l ++ l') = Some x.
Proof.
  induction l as [| y l IH]; cbn [find app]; [discriminate |].
  destruct (p y); [trivial | exact IH].
Qed.

Lemma find_app_none {A : Type} (p : A -> bool) (l l' : list A) :
  find p l = None -> find p (l ++ l') = find p l'.
Proof.
  induction l as [| y l IH]; cbn [find app]; [reflexivity |].
  destruct (p y); [discriminate | exact IH].
Qed.

Lemma matches_conflict_query_new (allocation allocation' : AllocationCreate)
    (i : ObjectId.t) (now_created now_updated : datetime) :
  ac_vehicle_id allocation' = ac_vehicle_id allocation ->
  ac_allocation_date allocation' = ac_allocation_date allocation ->
  matches (conflict_query allocation')
    (i, new_allocation_of allocation now_created now_updated) = true.
Proof.
  intros Hv Hd. apply matches_conflict_query. cbn.
  repeat split; auto. discriminate.
Qed.

(** X3. Booking the same vehicle for the same instant twice: once a
    creation has succeeded, any further request for that vehicle and
    instant that passes the date guard is refused with the conflict error
    and stores nothing, whoever the employee and whatever the purpose. *)
Theorem create_twice_conflict
    (inserted_id inserted_id' : ObjectId.t)
    (now_check now_created now_updated : datetime)
    (now_check' now_created' now_updated' : datetime)
    (allocation allocation' : AllocationCreate) (db db' : Db)
    (r : AllocationResponse)
    (Hrun : create_allocation inserted_id now_check now_created now_updated
              allocation db = (Ok r, db'))
    (Hv : ac_vehicle_id allocation' = ac_vehicle_id allocation)
    (Hd : ac_allocation_date allocation' = ac_allocation_date allocation)
    (Hdate : date_of now_check' <= date_of (ac_allocation_date allocation')) :
  create_allocation inserted_id' now_check' now_created' now_updated'
    allocation' db' = (Raise Conflict, db').
Proof.
  rewrite create_allocation_cases in Hrun.
  destruct (date_of (ac_allocation_date allocation) <? date_of now_check);
    [discriminate Hrun |].
  destruct (find _ (allocations db)) eqn:Hfind; [discriminate Hrun |].
  destruct (has_id (allocations db) inserted_id) eqn:Hfresh;
    [discriminate Hrun |].
  inversion Hrun; subst r db'. clear Hrun.
  rewrite create_allocation_cases.
  destruct (Z.ltb_spec (date_of (ac_allocation_date allocation'))
              (date_of now_check')) as [Hlt | _]; [lia |].
  cbn [allocations].
  destruct (find (matches (conflict_query allocation')) (allocations db))
    as [d |] eqn:Hfind'.
  - now rewrite (find_app_l _ _ _ _ Hfind').
  - rewrite (find_app_none _ _ _ Hfind'). cbn [find].
    now rewrite (matches_conflict_query_new allocation allocation'
                   inserted_id now_created now_updated Hv Hd).
Qed.

Lemma create_twice_conflict_witness :
  create_allocation oid_c (day 10) (day 10) (day 10)
    (sample_request "v2" (day 11))
    (snd (create_allocation oid_b (day 9) (day 9) (day 9)
            (sample_request "v2" (day 11)) db_one))
  = (Raise Conflict,
     snd (create_allocation oid_b (day 9) (day 9) (day 9)
            (sample_request "v2" (day 11)) db_one)).
Proof.
  apply (create_twice_conflict oid_b oid_c (day 9) (day 9) (day 9)
           (day 10) (day 10) (day 10)
           (sample_request "v2" (day 11)) (sample_request "v2" (day 11))
           db_one _ (ObjectId.str oid_b,
                     new_allocation_of (sample_request "v2" (day 11))
                       (day 9) (day 9)));
    [reflexivity | reflexivity | reflexivity | vm_compute; discriminate].
Defined.

(** ** Creation: invariants of the allocations *)

Lemma find_none_conflict (allocation : AllocationCreate)
    (c : collection Allocation) (d : ObjectId.t * Allocation) :
  find (matches (conflict_query allocation)) c = None ->
  In d c ->
  status (snd d) <> CANCELLED ->
  vehicle_id (snd d) = ac_vehicle_id allocation ->
  allocation_date (snd d) = ac_allocation_date allocation ->
  False.
Proof.
  intros Hnone Hin Hst Hv Hd.
  pose proof (find_none _ _ Hnone d Hin) as Hm.
  assert (Ht : matches (conflict_query allocation) d = true)
    by (apply matches_conflict_query; auto).
  congruence.
Qed.

Lemma insert_keeps_slot (allocation : AllocationCreate)
    (i : ObjectId.t) (now_created now_updated : datetime)
    (c : collection Allocation) :
  find (matches (conflict_query allocation)) c = None ->
  slot_unique c ->
  slot_unique (c ++ [(i, new_allocation_of allocation now_created
                           now_updated)]).
Proof.
  intros Hfind Hslot d1 d2 H1 H2 Hs1 Hs2 Hv Hd.
  apply in_app_or in H1. apply in_app_or in H2.
  destruct H1 as [H1 | [<- | []]]; destruct H2 as [H2 | [<- | []]].
  - now apply Hslot.
  - exfalso. cbn [snd new_allocation_of vehicle_id allocation_date] in *.
    exact (find_none_conflict allocation _ d1 Hfind H1 Hs1 Hv Hd).
  - exfalso. cbn [snd new_allocation_of vehicle_id allocation_date] in *.
    exact (find_none_conflict allocation _ d2 Hfind H2 Hs2
             (eq_sym Hv) (eq_sym Hd)).
  - reflexivity.
Qed.

Lemma create_allocation_lookup_cases (now_check : datetime)
    (allocation : AllocationCreate) (db : Db) :
  create_allocation_lookup now_check allocation db
  = if date_of (ac_allocation_date allocation) <? date_of now_check
    then (Raise InvalidDate, db)
    else
      match find (matches (conflict_query allocation)) (allocations db) with
      | Some _ => (Raise Conflict, db)
      | None => (Ok tt, db)
      end.
Proof.
  unfold create_allocation_lookup.
  destruct (date_of (ac_allocation_date allocation) <? date_of now_check);
    [reflexivity |].
  run. unfold find_one.
  destruct (find _ (allocations db)); reflexivity.
Qed.

Lemma create_allocation_insert_cases (inserted_id : ObjectId.t)
    (now_created now_updated : datetime) (allocation : AllocationCreate)
    (db : Db) :
  create_allocation_insert inserted_id now_created now_updated allocation db
  = if has_id (allocations db) inserted_id
    then (Raise DuplicateKeyError, db)
    else
      (Ok (ObjectId.str inserted_id,
           new_allocation_of allocation now_created now_updated),
       {| allocations :=
            allocations db
            ++ [(inserted_id,
                 new_allocation_of allocation now_created now_updated)];
          vehicles := vehicles db |}).
Proof.
  unfold create_allocation_insert. run. unfold insert_one.
  destruct (has_id (allocations db) inserted_id) eqn:Hfresh; cbn;
    [reflexivity |].
  unfold find_one. now rewrite (find_inserted _ _ _ Hfresh).
Qed.

(** With nothing between its two halves, the interleaved call is the
    handler. *)
Lemma create_allocation_interleaved_alone (inserted_id : ObjectId.t)
    (now_check now_created now_updated : datetime)
    (allocation : AllocationCreate) (db : Db) :
  create_allocation_interleaved inserted_id now_check now_created
    now_updated allocation (fun d => d) db
  = create_allocation inserted_id now_check now_created now_updated
      allocation db.
Proof.
  unfold create_allocation_interleaved.
  rewrite create_allocation_lookup_cases, create_allocation_cases.
  destruct (date_of (ac_allocation_date allocation) <? date_of now_check);
    [reflexivity |].
  destruct (find _ (allocations db)); [reflexivity |].
  apply create_allocation_insert_cases.
Qed.

(** X4. What [create_allocation] keeps, await by await.  Whatever other
    requests write between its lookup and its insert, the stored
    identifiers stay pairwise distinct.  The store stays free of double
    booking when nothing is written to the allocations between the lookup
    and the insert, in particular when the call runs alone; with such a
    write it need not: two requests for the same vehicle and instant whose
    lookups both run before either insert are both accepted and leave the
    store double-booked. *)
Theorem create_allocation_keeps_invariants
    (inserted_id : ObjectId.t) (now_check now_created now_updated : datetime)
    (allocation : AllocationCreate) (between : Db -> Db) (db : Db) :
  (unique_ids (allocations db) ->
   unique_ids (allocations (between db)) ->
   unique_ids
     (allocations
        (snd (create_allocation_interleaved inserted_id now_check
                now_created now_updated allocation between db))))
  /\ (slot_unique (allocations db) ->
      allocations (between db) = allocations db ->
      slot_unique
        (allocations
           (snd (create_allocation_interleaved inserted_id now_check
                   now_created now_updated allocation between db))))
  /\ (unique_ids (allocations db) ->
      slot_unique (allocations db) ->
      unique_ids
        (allocations
           (snd (create_allocation inserted_id now_check now_created
                   now_updated allocation db)))
      /\ slot_unique
           (allocations
              (snd (create_allocation inserted_id now_check now_created
                      now_updated allocation db))))
  /\ (exists other r db',
        slot_unique (allocations empty_db)
        /\ create_allocation_interleaved oid_b (day 9) (day 9) (day 9)
             (sample_request "v1" (day 10))
             (fun d => snd (create_allocation oid_a (day 9) (day 9) (day 9)
                              other d))
             empty_db = (Ok r, db')
        /\ ac_vehicle_id other = "v1"
        /\ ac_allocation_date other = day 10
        /\ List.length (allocations db') = 2%nat
        /\ ~ slot_unique (allocations db')).
Proof.
  assert (Hkey : unique_ids (allocations db) ->
                 unique_ids (allocations (between db)) ->
                 unique_ids
                   (allocations
                      (snd (create_allocation_interleaved inserted_id
                              now_check now_created now_updated allocation
                              between db)))).
  { intros Hk Hk'. unfold create_allocation_interleaved.
    rewrite create_allocation_lookup_cases.
    destruct (date_of (ac_allocation_date allocation) <? date_of now_check);
      [exact Hk |].
    destruct (find _ (allocations db)); [exact Hk |].
    rewrite create_allocation_insert_cases.
    destruct (has_id (allocations (between db)) inserted_id) eqn:Hfresh;
      [exact Hk' |].
    cbn [snd allocations]. unfold unique_ids in *.
    apply (insert_one_key inserted_id
             (new_allocation_of allocation now_created now_updated)
             (allocations (between db))); [exact Hk' |].
    unfold insert_one. now rewrite Hfresh. }
  assert (Hslot : slot_unique (allocations db) ->
                  allocations (between db) = allocations db ->
                  slot_unique
                    (allocations
                       (snd (create_allocation_interleaved inserted_id
                               now_check now_created now_updated allocation
                               between db)))).
  { intros Hs Hsame. unfold create_allocation_interleaved.
    rewrite create_allocation_lookup_cases.
    destruct (date_of (ac_allocation_date allocation) <? date_of now_check);
      [exact Hs |].
    destruct (find _ (allocations db)) eqn:Hfind; [exact Hs |].
    rewrite create_allocation_insert_cases.
    destruct (has_id (allocations (between db)) inserted_id);
      cbn [snd allocations]; rewrite Hsame;
      [exact Hs | now apply insert_keeps_slot]. }
  split; [exact Hkey |]. split; [exact Hslot |]. split.
  - intros Hk Hs. rewrite create_allocation_cases.
    destruct (date_of (ac_allocation_date allocation) <? date_of now_check);
      [now split |].
    destruct (find _ (allocations db)) eqn:Hfind; [now split |].
    destruct (has_id (allocations db) inserted_id) eqn:Hfresh;
      [now split |].
    cbn [snd allocations]. split.
    + unfold unique_ids in *.
      apply (insert_one_key inserted_id
               (new_allocation_of allocation now_created now_updated)
               (allocations db)); [exact Hk |].
      unfold insert_one. now rewrite Hfresh.
    + now apply insert_keeps_slot.
  - exists (sample_request "v1" (day 10)).
    do 2 eexists.
    split; [intros d1 d2 [] |].
    split; [vm_compute; reflexivity |].
    split; [reflexivity |]. split; [reflexivity |].
    split; [reflexivity |].
    intros Hs.
    assert (Heq : oid_a = oid_b).
    { apply (Hs (oid_a, new_allocation_of (sample_request "v1" (day 10))
                          (day 9) (day 9))
                (oid_b, new_allocation_of (sample_request "v1" (day 10))
                          (day 9) (day 9)));
        cbn; auto; discriminate. }
    discriminate Heq.
Qed.

Lemma create_allocation_keeps_invariants_witness :
  unique_ids
    (allocations (snd (create_allocation oid_b (day 9) (day 9) (day 9)
                         (sample_request "v2" (day 11)) db_one)))
  /\ slot_unique
       (allocations (snd (create_allocation oid_b (day 9) (day 9) (day 9)
                            (sample_request "v2" (day 11)) db_one))).
Proof.
  apply (proj1 (proj2 (proj2
           (create_allocation_keeps_invariants oid_b (day 9) (day 9) (day 9)
              (sample_request "v2" (day 11)) (fun d => d) db_one)))).
  - unfold unique_ids. cbn. repeat constructor. intros [].
  - intros d1 d2 [<- | []] [<- | []] _ _ _ _. reflexivity.
Defined.

(** ** Identifiers that are well formed and absent *)

(** X5. A well-formed identifier that no stored allocation carries:
    [get_allocation], [update_allocation] and [delete_allocation] all
    answer not-found (HTTP 404) and leave the store as it was. *)
Theorem absent_identifier_not_found
    (today : date) (now : datetime) (allocation_id : string)
    (allocation_update : AllocationUpdate) (db : Db) (oid : ObjectId.t)
    (Hid : ObjectId.new allocation_id = Ok oid)
    (Habsent : forall d, In d (allocations db) -> fst d <> oid) :
  get_allocation allocation_id db = (Raise NotFound, db)
  /\ update_allocation today now allocation_id allocation_update db
     = (Raise NotFound, db)
  /\ delete_allocation today allocation_id db = (Raise NotFound, db).
Proof.
  assert (Hnone : find (matches (by_id oid)) (allocations db) = None).
  { destruct (find _ (allocations db)) as [d |] eqn:Hfind; [| reflexivity].
    pose proof (find_by_id_fst _ _ _ Hfind) as Hfst.
    apply find_some in Hfind. destruct Hfind as [Hin _].
    now elim (Habsent d Hin). }
  rewrite get_allocation_cases, update_allocation_cases,
    delete_allocation_cases, Hid, Hnone.
  repeat split.
Qed.

Lemma absent_identifier_not_found_witness :
  get_allocation "bbbbbbbbbbbbbbbbbbbbbbbb" db_one = (Raise NotFound, db_one)
  /\ update_allocation 3 (day 3) "bbbbbbbbbbbbbbbbbbbbbbbb"
       {| au_purpose := Unset; au_status := Unset |} db_one
     = (Raise NotFound, db_one)
  /\ delete_allocation 3 "bbbbbbbbbbbbbbbbbbbbbbbb" db_one
     = (Raise NotFound, db_one).
Proof.
  apply (absent_identifier_not_found 3 (day 3) "bbbbbbbbbbbbbbbbbbbbbbbb"
           {| au_purpose := Unset; au_status := Unset |} db_one oid_b eq_refl).
  intros d [<- | []]. discriminate.
Defined.

(** ** Reading one allocation *)

(** X6. [get_allocation] only reads: the store is never changed; its
    answer is a response, not-found or invalid-identifier, never the
    catch-all HTTP 500; and a response is always the rendering of a stored
    document whose identifier is the one the string denotes. *)
Theorem get_allocation_reads_only (allocation_id : string) (db : Db) :
  snd (get_allocation allocation_id db) = db
  /\ ((exists r, fst (get_allocation allocation_id db) = Ok r)
      \/ fst (get_allocation allocation_id db) = Raise NotFound
      \/ fst (get_allocation allocation_id db) = Raise InvalidIdentifier)
  /\ (forall r, fst (get_allocation allocation_id db) = Ok r ->
        exists d, In d (allocations db)
          /\ r = render_id d
          /\ ObjectId.new allocation_id = Ok (fst d)).
Proof.
  rewrite get_allocation_cases.
  destruct (ObjectId.new allocation_id) as [oid | e]; cbn [fst snd].
  - destruct (find (matches (by_id oid)) (allocations db)) as [d |] eqn:Hfind;
      cbn [fst snd].
    + split; [reflexivity |]. split; [left; eauto |].
      intros r Hr. inversion Hr; subst r. exists d.
      pose proof (find_by_id_fst _ _ _ Hfind) as Hfst.
      apply find_some in Hfind. destruct Hfind as [Hin _].
      repeat split; [exact Hin | now rewrite Hfst].
    + split; [reflexivity |]. split; [right; left; reflexivity |].
      intros r Hr. discriminate Hr.
  - split; [reflexivity |]. split; [right; right; reflexivity |].
    intros r Hr. discriminate Hr.
Qed.

(** ** Update: what is written *)

Lemma update_one_ids (p : ObjectId.t * Allocation -> bool)
    (g : Allocation -> Allocation) (c : collection Allocation) :
  map fst (update_one p g c) = map fst c.
Proof.
  induction c as [| d c IH]; [reflexivity |].
  cbn [update_one]. destruct (p d); cbn [map fst]; [reflexivity |].
  now rewrite IH.
Qed.

(** X7. [update_allocation] never adds, removes or re-keys a document and
    never touches the vehicles: the stored identifiers are the same, in the
    same order, after any call; and when it raises, the whole store is as
    it was. *)
Theorem update_allocation_keeps_documents
    (today : date) (now : datetime) (allocation_id : string)
    (allocation_update : AllocationUpdate) (db : Db) :
  map fst (allocations (snd (update_allocation today now allocation_id
                               allocation_update db)))
  = map fst (allocations db)
  /\ vehicles (snd (update_allocation today now allocation_id
                      allocation_update db)) = vehicles db
  /\ (forall e,
        fst (update_allocation today now allocation_id allocation_update db)
        = Raise e ->
        snd (update_allocation today now allocation_id allocation_update db)
        = db).
Proof.
  rewrite update_allocation_cases.
  destruct (ObjectId.new allocation_id) as [oid | e]; [| now repeat split].
  destruct (find (matches (by_id oid)) (allocations db)) as [d |];
    [| now repeat split].
  destruct (date_of (allocation_date (snd d)) <=? today);
    [now repeat split |].
  cbn [fst snd allocations vehicles].
  split; [apply update_one_ids |]. split; [reflexivity |].
  intros e H. discriminate H.
Qed.

(** X8. What [update_allocation] returns can be fetched: after a
    successful update, [get_allocation] on the same identifier string
    answers with the very response of the update. *)
Theorem update_then_get
    (today : date) (now : datetime) (allocation_id : string)
    (allocation_update : AllocationUpdate) (db db' : Db)
    (r : AllocationResponse)
    (Hrun : update_allocation today now allocation_id allocation_update db
            = (Ok r, db')) :
  get_allocation allocation_id db' = (Ok r, db').
Proof.
  rewrite update_allocation_cases in Hrun.
  rewrite get_allocation_cases.
  destruct (ObjectId.new allocation_id) as [oid | e]; [| discriminate Hrun].
  destruct (find (matches (by_id oid)) (allocations db)) as [d |] eqn:Hfind;
    [| discriminate Hrun].
  destruct (date_of (allocation_date (snd d)) <=? today);
    [discriminate Hrun |].
  inversion Hrun; subst r db'. cbn [allocations].
  rewrite find_update_same, Hfind. cbn [option_map render_id fst snd].
  now rewrite (find_by_id_fst _ _ _ Hfind).
Qed.

Lemma update_then_get_witness :
  get_allocation "aaaaaaaaaaaaaaaaaaaaaaaa"
    (snd (update_allocation 9 (day 9 + 5) "aaaaaaaaaaaaaaaaaaaaaaaa"
            {| au_purpose := Supplied (Some "visit");
               au_status := Supplied (Some CANCELLED) |} db_one))
  = update_allocation 9 (day 9 + 5) "aaaaaaaaaaaaaaaaaaaaaaaa"
      {| au_purpose := Supplied (Some "visit");
         au_status := Supplied (Some CANCELLED) |} db_one.
Proof.
  exact (update_then_get 9 (day 9 + 5) "aaaaaaaaaaaaaaaaaaaaaaaa"
           {| au_purpose := Supplied (Some "visit");
              au_status := Supplied (Some CANCELLED) |} db_one _ _ eq_refl).
Defined.

(** ** Delete: what is removed *)

(** X9. [delete_allocation] removes one document or none: when it raises,
    the store is as it was; when it returns, it returns the confirmation
    message, the vehicles are untouched, exactly one allocation is gone
    and every remaining allocation was stored before. *)
Theorem delete_allocation_removes_one
    (today : date) (allocation_id : string) (db : Db) :
  (forall e, fst (delete_allocation today allocation_id db) = Raise e ->
     snd (delete_allocation today allocation_id db) = db)
  /\ (forall m, fst (delete_allocation today allocation_id db) = Ok m ->
        m = "Allocation deleted successfully"
        /\ vehicles (snd (delete_allocation today allocation_id db))
           = vehicles db
        /\ List.length (allocations db)
           = S (List.length
                  (allocations (snd (delete_allocation today allocation_id
                                       db))))
        /\ (forall d,
              In d (allocations (snd (delete_allocation today allocation_id
                                        db))) ->
              In d (allocations db))).
Proof.
  rewrite delete_allocation_cases.
  destruct (ObjectId.new allocation_id) as [oid | e];
    [| split; [reflexivity | intros m H; discriminate H]].
  destruct (find (matches (by_id oid)) (allocations db)) as [d |] eqn:Hfind;
    [| split; [reflexivity | intros m H; discriminate H]].
  destruct (allocation_date (snd d) <=? combine today time_max);
    [split; [reflexivity | intros m H; discriminate H] |].
  split; [intros e H; discriminate H |].
  intros m H. cbn [fst snd allocations vehicles] in *.
  inversion H; subst m.
  split; [reflexivity |]. split; [reflexivity |].
  split; [exact (delete_one_length _ _ _ Hfind) |].
  intros x. apply delete_one_incl.
Qed.

(** X10. A deleted allocation is gone and nothing else is: with pairwise
    distinct stored identifiers, after a successful deletion
    [get_allocation] on the same identifier answers not-found, and on any
    identifier string denoting another identifier it answers as it did
    before the deletion. *)
Theorem delete_then_get
    (today : date) (allocation_id : string) (db db' : Db) (m : string)
    (Hkey : unique_ids (allocations db))
    (Hrun : delete_allocation today allocation_id db = (Ok m, db')) :
  get_allocation allocation_id db' = (Raise NotFound, db')
  /\ (forall other,
        ObjectId.new other <> ObjectId.new allocation_id ->
        fst (get_allocation other db') = fst (get_allocation other db)).
Proof.
  rewrite delete_allocation_cases in Hrun.
  destruct (ObjectId.new allocation_id) as [oid | e] eqn:Hid;
    [| discriminate Hrun].
  destruct (find (matches (by_id oid)) (allocations db)) as [d |] eqn:Hfind;
    [| discriminate Hrun].
  destruct (allocation_date (snd d) <=? combine today time_max);
    [discriminate Hrun |].
  inversion Hrun; subst m db'. split.
  - rewrite get_allocation_cases, Hid. cbn [allocations].
    now rewrite (find_delete_same oid _ Hkey).
  - intros other Hother. rewrite !get_allocation_cases.
    destruct (ObjectId.new other) as [oj | e]; [| reflexivity].
    cbn [allocations]. rewrite find_delete_other by congruence.
    destruct (find (matches (by_id oj)) (allocations db)); reflexivity.
Qed.

Lemma delete_then_get_witness :
  get_allocation "aaaaaaaaaaaaaaaaaaaaaaaa"
    (snd (delete_allocation 9 "aaaaaaaaaaaaaaaaaaaaaaaa" db_one))
  = (Raise NotFound, snd (delete_allocation 9 "aaaaaaaaaaaaaaaaaaaaaaaa"
                            db_one)).
Proof.
  refine (proj1 (delete_then_get 9 "aaaaaaaaaaaaaaaaaaaaaaaa" db_one _ _
                   _ eq_refl)).
  unfold unique_ids. cbn. repeat constructor. intros [].
Defined.

(** ** Sequences of calls *)

Lemma delete_inserted (i : ObjectId.t) (f : Allocation)
    (c : collection Allocation) :
  has_id c i = false ->
  delete_one (matches (by_id i)) (c ++ [(i, f)]) = c.
Proof.
  unfold has_id. induction c as [| d c IH]; cbn [existsb app delete_one].
  - intros _. rewrite matches_by_id. cbn [fst].
    now rewrite ObjectId_eqb_refl.
  - intros H. apply orb_false_iff in H. destruct H as [Hd Hc].
    rewrite matches_by_id, Hd. now rewrite (IH Hc).
Qed.

(** X11. Creating and then deleting restores the store: after a
    successful creation under a well-formed identifier, deleting the
    returned id on a day before the allocation's date succeeds and leaves
    exactly the store the creation started from. *)
Theorem create_then_delete
    (inserted_id : ObjectId.t) (now_check now_created now_updated : datetime)
    (allocation : AllocationCreate) (db db' : Db) (r : AllocationResponse)
    (today : date)
    (Hwf : ObjectId.new (ObjectId.str inserted_id) = Ok inserted_id)
    (Hrun : create_allocation inserted_id now_check now_created now_updated
              allocation db = (Ok r, db'))
    (Hfuture : today < date_of (ac_allocation_date allocation)) :
  delete_allocation today (fst r) db'
  = (Ok "Allocation deleted successfully", db).
Proof.
  rewrite create_allocation_cases in Hrun.
  destruct (date_of (ac_allocation_date allocation) <? date_of now_check);
    [discriminate Hrun |].
  destruct (find _ (allocations db)); [discriminate Hrun |].
  destruct (has_id (allocations db) inserted_id) eqn:Hfresh;
    [discriminate Hrun |].
  inversion Hrun; subst r db'. cbn [fst].
  rewrite delete_allocation_cases, Hwf. cbn [allocations vehicles].
  rewrite (find_inserted _ _ _ Hfresh).
  cbn [snd new_allocation_of allocation_date].
  destruct (Z.leb_spec (ac_allocation_date allocation)
              (combine today time_max)) as [Hle | _].
  - apply le_end_of_day in Hle. lia.
  - rewrite (delete_inserted _ _ _ Hfresh). now destruct db.
Qed.

Lemma create_then_delete_witness :
  delete_allocation 10 "bbbbbbbbbbbbbbbbbbbbbbbb"
    (snd (create_allocation oid_b (day 9) (day 9) (day 9)
            (sample_request "v2" (day 11)) db_one))
  = (Ok "Allocation deleted successfully", db_one).
Proof.
  exact (create_then_delete oid_b (day 9) (day 9) (day 9)
           (sample_request "v2" (day 11)) db_one _ _ 10
           eq_refl eq_refl eq_refl).
Defined.

Lemma In_update_one_by_id (oid : ObjectId.t) (g : Allocation -> Allocation)
    (c : collection Allocation) (d : ObjectId.t * Allocation) :
  unique_ids c ->
  In d (update_one (matches (by_id oid)) g c) ->
  (In d c /\ fst d <> oid)
  \/ (exists a, In (oid, a) c /\ d = (oid, g a)).
Proof.
  unfold unique_ids. induction c as [| x c IH]; [intros _ [] |].
  cbn [map]. intros Hnd. inversion Hnd as [| ? ? Hx Hc]; subst.
  cbn [update_one]. destruct (matches (by_id oid) x) eqn:Hm.
  - rewrite matches_by_id in Hm. apply ObjectId_eqb_eq in Hm.
    intros [<- | Hin].
    + right. exists (snd x). split; [left; now destruct x; cbn in *; subst |].
      now rewrite Hm.
    + left. split; [now right |]. intros Heq. apply Hx.
      rewrite Hm, <- Heq. now apply in_map.
  - intros [<- | Hin].
    + left. split; [now left |]. intros Heq.
      rewrite matches_by_id in Hm. rewrite Heq, ObjectId_eqb_refl in Hm.
      discriminate.
    + destruct (IH Hc Hin) as [[H1 H2] | [a [H1 H2]]].
      * left. split; [now right | exact H2].
      * right. exists a. split; [now right | exact H2].
Qed.

Lemma has_id_update_one (p : ObjectId.t * Allocation -> bool)
    (g : Allocation -> Allocation) (c : collection Allocation)
    (i : ObjectId.t) :
  has_id (update_one p g c) i = has_id c i.
Proof.
  unfold has_id. induction c as [| x c IH]; [reflexivity |].
  cbn [update_one]. destruct (p x); cbn [existsb fst]; [reflexivity |].
  now rewrite IH.
Qed.

(** X12. Cancelling frees the slot: with pairwise distinct identifiers and
    no double booking in the store, once an allocation that is not
    cancelled and dated after today has been updated to cancelled, a
    request for the same vehicle and instant that passes the date guard,
    under a new identifier, is accepted. *)
Theorem cancel_then_create
    (today : date) (now : datetime) (allocation_id : string)
    (new_purpose : body_field string) (db : Db)
    (oid : ObjectId.t) (a : Allocation)
    (inserted_id : ObjectId.t) (now_check now_created now_updated : datetime)
    (allocation : AllocationCreate)
    (Hkey : unique_ids (allocations db))
    (Hslot : slot_unique (allocations db))
    (Hid : ObjectId.new allocation_id = Ok oid)
    (Hfind : find_one (matches (by_id oid)) (allocations db) = Some (oid, a))
    (Hactive : status a <> CANCELLED)
    (Hfuture : today < date_of (allocation_date a))
    (Hv : ac_vehicle_id allocation = vehicle_id a)
    (Hd : ac_allocation_date allocation = allocation_date a)
    (Hdate : date_of now_check <= date_of (ac_allocation_date allocation))
    (Hfresh : has_id (allocations db) inserted_id = false) :
  exists r db1 db2,
    update_allocation today now allocation_id
      {| au_purpose := new_purpose; au_status := Supplied (Some CANCELLED) |}
      db = (Ok r, db1)
    /\ status (snd r) = CANCELLED
    /\ create_allocation inserted_id now_check now_created now_updated
         allocation db1
       = (Ok (ObjectId.str inserted_id,
              new_allocation_of allocation now_created now_updated), db2).
Proof.
  unfold find_one in Hfind.
  rewrite update_allocation_cases, Hid, Hfind. cbn [snd].
  destruct (Z.leb_spec (date_of (allocation_date a)) today) as [Hle | _];
    [lia |].
  do 3 eexists. split; [reflexivity |].
  split; [cbn [snd]; rewrite dollar_set_update_data; reflexivity |].
  rewrite create_allocation_cases.
  destruct (Z.ltb_spec (date_of (ac_allocation_date allocation))
              (date_of now_check)) as [Hlt | _]; [lia |].
  cbn [allocations vehicles]. rewrite has_id_update_one, Hfresh.
  destruct (find (matches (conflict_query allocation)) _) as [d |] eqn:Hc;
    [| reflexivity].
  exfalso. apply find_some in Hc. destruct Hc as [Hin Hm].
  apply matches_conflict_query in Hm. destruct Hm as (Hdv & Hdd & Hds).
  destruct (In_update_one_by_id oid _ _ d Hkey Hin)
    as [[Hold Hne] | [a0 [_ ->]]].
  - apply Hne.
    apply find_some in Hfind. destruct Hfind as [Hina _].
    apply (Hslot d (oid, a) Hold Hina Hds Hactive); cbn [snd]; congruence.
  - cbn [snd] in Hds. rewrite dollar_set_update_data in Hds.
    cbn [status au_status] in Hds. now elim Hds.
Qed.

Lemma cancel_then_create_witness :
  exists r db1 db2,
    update_allocation 9 (day 9) "aaaaaaaaaaaaaaaaaaaaaaaa"
      {| au_purpose := Unset; au_status := Supplied (Some CANCELLED) |}
      db_one = (Ok r, db1)
    /\ status (snd r) = CANCELLED
    /\ create_allocation oid_b (day 9) (day 9) (day 9)
         (sample_request "v1" (day 10 + 43200000)) db1
       = (Ok (ObjectId.str oid_b,
              new_allocation_of (sample_request "v1" (day 10 + 43200000))
                (day 9) (day 9)), db2).
Proof.
  apply (cancel_then_create 9 (day 9) "aaaaaaaaaaaaaaaaaaaaaaaa" Unset db_one
           oid_a (sample_allocation "v1" (day 10 + 43200000) ALLOCATED)
           oid_b (day 9) (day 9) (day 9)
           (sample_request "v1" (day 10 + 43200000))).
  - unfold unique_ids. cbn. repeat constructor. intros [].
  - intros d1 d2 [<- | []] [<- | []] _ _ _ _. reflexivity.
  - reflexivity.
  - reflexivity.
  - discriminate.
  - reflexivity.
  - reflexivity.
  - reflexivity.
  - vm_compute. discriminate.
  - reflexivity.
Defined.

(** ** Listing: what a page holds *)

Lemma In_firstn_list {A : Type} (n : nat) (l : list A) (x : A) :
  In x (firstn n l) -> In x l.
Proof.
  intros H. rewrite <- (firstn_skipn n l). apply in_or_app. now left.
Qed.

Lemma In_skipn_list {A : Type} (n : nat) (l : list A) (x : A) :
  In x (skipn n l) -> In x l.
Proof.
  intros H. rewrite <- (firstn_skipn n l). apply in_or_app. now right.
Qed.

Lemma In_cursor_limit {A : Type} (n : Z) (l : list A) (x : A) :
  In x (cursor_limit n l) -> In x l.
Proof.
  unfold cursor_limit. destruct (n =? 0); [trivial | apply In_firstn_list].
Qed.

Lemma get_allocations_cases
    (employee vehicle : option string) (st : option AllocationStatus)
    (start_date end_date : option date) (skip limit : option Z) (db : Db) :
  get_allocations employee vehicle st start_date end_date skip limit db
  = match Query "skip" 0 (Some 0) None skip with
    | Raise e => (Raise e, db)
    | Ok s =>
        match Query "limit" 10 (Some 1) (Some 100) limit with
        | Raise e => (Raise e, db)
        | Ok n =>
            if query_encodable
                 (list_query employee vehicle st start_date end_date)
            then
              (Ok (map render_id
                     (cursor_limit n
                        (skipn (Z.to_nat s)
                           (sort_desc
                              (filter
                                 (matches
                                    (list_query employee vehicle st
                                       start_date end_date))
                                 (allocations db)))))), db)
            else (Raise InvalidDocument, db)
        end
    end.
Proof.
  unfold get_allocations, bind, lift, ret, allocations_find.
  destruct (Query "skip" 0 (Some 0) None skip); [| reflexivity].
  destruct (Query "limit" 10 (Some 1) (Some 100) limit); [| reflexivity].
  destruct (query_encodable _); reflexivity.
Qed.

Lemma Query_limit_bounds (raw : option Z) (n : Z) :
  Query "limit" 10 (Some 1) (Some 100) raw = Ok n -> 1 <= n <= 100.
Proof.
  destruct raw as [v |]; unfold Query; cbn [opt_test].
  - destruct (Z.leb_spec 1 v); destruct (Z.leb_spec v 100); cbn [andb];
      intros Hq; inversion Hq; subst; lia.
  - intros Hq. inversion Hq. lia.
Qed.

Lemma matches_list_query
    (employee vehicle : option string) (st : option AllocationStatus)
    (start_date end_date : option date) (d : ObjectId.t * Allocation) :
  matches (list_query employee vehicle st start_date end_date) d = true ->
  (forall e, employee = Some e -> e <> "" -> employee_id (snd d) = e)
  /\ (forall v, vehicle = Some v -> v <> "" -> vehicle_id (snd d) = v)
  /\ (forall s, st = Some s -> status (snd d) = s)
  /\ (forall s, start_date = Some s -> end_date = None ->
        s <= date_of (allocation_date (snd d)))
  /\ (forall e, end_date = Some e -> start_date = None ->
        date_of (allocation_date (snd d)) <= e).
Proof.
  unfold matches, list_query.
  cbn [q__id q_employee_id q_vehicle_id q_status q_allocation_date].
  rewrite !andb_true_iff. intros [[[[_ He] Hv] Hs] Hd].
  split; [| split; [| split; [| split]]].
  - intros e -> Hne. destruct e; [now elim Hne |].
    cbn [truthy opt_test] in He. now apply String.eqb_eq in He.
  - intros v -> Hne. destruct v; [now elim Hne |].
    cbn [truthy opt_test] in Hv. now apply String.eqb_eq in Hv.
  - intros s ->. cbn [option_map opt_test status_test] in Hs.
    apply String.eqb_eq in Hs.
    destruct (status (snd d)), s; cbn in Hs; congruence.
  - intros s -> ->. apply date_filter_start_only in Hd.
    now apply ge_start_of_day.
  - intros e -> ->. apply date_filter_end_only in Hd.
    now apply le_end_of_day.
Qed.

(** X13. [get_allocations] only reads and only returns what was asked
    for: the store is never changed, and when a page is returned it holds
    at most [limit] and at most 100 responses, each the rendering of a
    stored allocation that satisfies every filter supplied: the employee
    and vehicle references when non-empty, the status, and the day bound
    when a single date bound is given. *)
Theorem get_allocations_sound
    (employee vehicle : option string) (st : option AllocationStatus)
    (start_date end_date : option date) (skip limit : option Z) (db : Db) :
  snd (get_allocations employee vehicle st start_date end_date skip limit db)
  = db
  /\ (forall page,
        fst (get_allocations employee vehicle st start_date end_date skip
               limit db) = Ok page ->
        (Z.of_nat (List.length page) <= or_default limit 10
         /\ Z.of_nat (List.length page) <= 100)
        /\ (forall r, In r page ->
              exists d, In d (allocations db) /\ r = render_id d
                /\ (forall e, employee = Some e -> e <> "" ->
                      employee_id (snd d) = e)
                /\ (forall v, vehicle = Some v -> v <> "" ->
                      vehicle_id (snd d) = v)
                /\ (forall s, st = Some s -> status (snd d) = s)
                /\ (forall s, start_date = Some s -> end_date = None ->
                      s <= date_of (allocation_date (snd d)))
                /\ (forall e, end_date = Some e -> start_date = None ->
                      date_of (allocation_date (snd d)) <= e))).
Proof.
  rewrite get_allocations_cases.
  destruct (Query "skip" 0 (Some 0) None skip) as [s | e];
    [| split; [reflexivity | intros page H; discriminate H]].
  destruct (Query "limit" 10 (Some 1) (Some 100) limit) as [n | e] eqn:Hn;
    [| split; [reflexivity | intros page H; discriminate H]].
  destruct (query_encodable _);
    [| split; [reflexivity | intros page H; discriminate H]].
  split; [reflexivity |]. cbn [fst]. intros page H. inversion H; subst page.
  pose proof (Query_limit_bounds limit n Hn) as Hb.
  assert (Hdef : n = or_default limit 10).
  { destruct limit as [v |]; unfold Query in Hn; cbn [opt_test] in Hn.
    - destruct (_ && _); inversion Hn; reflexivity.
    - inversion Hn; reflexivity. }
  split.
  - rewrite length_map, cursor_limit_pos by lia.
    pose proof (firstn_le_length (Z.to_nat n)
                  (skipn (Z.to_nat s)
                     (sort_desc
                        (filter
                           (matches
                              (list_query employee vehicle st start_date
                                 end_date)) (allocations db))))) as Hlen.
    lia.
  - intros r Hr. apply in_map_iff in Hr. destruct Hr as [d [<- Hin]].
    apply In_cursor_limit, In_skipn_list in Hin.
    apply (Permutation_in _ (sort_desc_perm _)) in Hin.
    apply filter_In in Hin. destruct Hin as [Hin Hm].
    exists d. split; [exact Hin |]. split; [reflexivity |].
    now apply matches_list_query.
Qed.

(** An empty string as [employee_id] or [vehicle_id] parameter is no
    filter at all: the listing is the one obtained without the
    parameter. *)
Lemma get_allocations_empty_filter
    (employee vehicle : option string) (st : option AllocationStatus)
    (start_date end_date : option date) (skip limit : option Z) (db : Db) :
  get_allocations (Some "") vehicle st start_date end_date skip limit db
  = get_allocations None vehicle st start_date end_date skip limit db
  /\ get_allocations employee (Some "") st start_date end_date skip limit db
     = get_allocations employee None st start_date end_date skip limit db.
Proof.
  split; reflexivity.
Qed.

Lemma firstn_add_skipn {A : Type} (n m : nat) (l : list A) :
  firstn n l ++ firstn m (skipn n l) = firstn (n + m) l.
Proof.
  revert l. induction n as [| n IH]; intros l; [reflexivity |].
  destruct l as [| x l]; cbn [firstn skipn Nat.add app].
  - now rewrite firstn_nil.
  - now rewrite IH.
Qed.

(** With pairwise distinct allocation dates there is one descending
    order only. *)
Lemma date_desc_sorted_unique (l1 l2 : list (ObjectId.t * Allocation)) :
  NoDup (map (fun d => allocation_date (snd d)) l1) ->
  Permutation l1 l2 ->
  StronglySorted date_desc l1 -> StronglySorted date_desc l2 ->
  l1 = l2.
Proof.
  revert l2. induction l1 as [| x l1 IH]; intros l2 Hnd Hperm Hs1 Hs2.
  - apply Permutation_nil in Hperm. now subst.
  - destruct l2 as [| y l2];
      [apply Permutation_sym, Permutation_nil in Hperm; discriminate |].
    cbn [map] in Hnd. inversion Hnd as [| ? ? Hx Hnd']; subst.
    inversion Hs1 as [| ? ? Hs1' Hx1]; subst.
    inversion Hs2 as [| ? ? Hs2' Hy2]; subst.
    assert (Hxy : x = y).
    { assert (Hin : In x (y :: l2))
        by (apply (Permutation_in _ Hperm); now left).
      destruct Hin as [Heq | Hin]; [now symmetry |].
      assert (Hin' : In y (x :: l1))
        by (apply (Permutation_in _ (Permutation_sym Hperm)); now left).
      destruct Hin' as [Heq | Hin']; [exact Heq |].
      exfalso.
      pose proof (proj1 (Forall_forall _ _) Hy2 x Hin) as Hle1.
      pose proof (proj1 (Forall_forall _ _) Hx1 y Hin') as Hle2.
      unfold date_desc in *. apply Hx.
      replace (allocation_date (snd x)) with (allocation_date (snd y))
        by lia.
      apply (in_map (fun d => allocation_date (snd d))). exact Hin'. }
    subst y. f_equal.
    apply IH; auto. now apply Permutation_cons_inv in Hperm.
Qed.

(** X14. Consecutive pages tile the listing when no two matching
    allocations share an allocation date.  Then the descending order is
    the only one there is: for whichever sorted arrangement of the matches
    the store produces, with limits in range and at most one date bound,
    the page at [skip] of [n] documents and the page at [skip + n] of [m]
    documents are the corresponding stretches of that arrangement, and
    together they are the page at [skip] of [n + m] documents; nothing is
    repeated or lost between pages. *)
Theorem get_allocations_pages_tile
    (employee vehicle : option string) (st : option AllocationStatus)
    (start_date end_date : option date) (skip n m : Z) (db : Db)
    (sorted : list (ObjectId.t * Allocation))
    (Hn : 1 <= n) (Hm : 1 <= m) (Hnm : n + m <= 100) (Hskip : 0 <= skip)
    (Hdates : start_date = None \/ end_date = None)
    (Hties : NoDup
               (map (fun d => allocation_date (snd d))
                  (filter
                     (matches
                        (list_query employee vehicle st start_date end_date))
                     (allocations db))))
    (Hperm : Permutation sorted
               (filter
                  (matches
                     (list_query employee vehicle st start_date end_date))
                  (allocations db)))
    (Hsorted : StronglySorted date_desc sorted) :
  get_allocations employee vehicle st start_date end_date
    (Some skip) (Some n) db
  = (Ok (map render_id
           (firstn (Z.to_nat n) (skipn (Z.to_nat skip) sorted))), db)
  /\ get_allocations employee vehicle st start_date end_date
       (Some (skip + n)) (Some m) db
     = (Ok (map render_id
              (firstn (Z.to_nat m) (skipn (Z.to_nat (skip + n)) sorted))),
        db)
  /\ get_allocations employee vehicle st start_date end_date
       (Some skip) (Some (n + m)) db
     = (Ok (map render_id
              (firstn (Z.to_nat n) (skipn (Z.to_nat skip) sorted))
            ++ map render_id
                 (firstn (Z.to_nat m)
                    (skipn (Z.to_nat (skip + n)) sorted))), db).
Proof.
  assert (Hthe : sort_desc
                   (filter
                      (matches
                         (list_query employee vehicle st start_date
                            end_date)) (allocations db)) = sorted).
  { apply date_desc_sorted_unique.
    - eapply Permutation_NoDup; [| exact Hties].
      apply Permutation_map, Permutation_sym, sort_desc_perm.
    - rewrite sort_desc_perm. now apply Permutation_sym.
    - apply sort_desc_sorted.
    - exact Hsorted. }
  assert (Henc : query_encodable
                   (list_query employee vehicle st start_date end_date)
                 = true).
  { rewrite list_query_encodable.
    destruct Hdates as [-> | ->]; [| destruct start_date]; reflexivity. }
  rewrite !get_allocations_cases.
  rewrite (Query_skip (Some skip))
    by (intros s Hs; inversion Hs; subst; lia).
  rewrite (Query_skip (Some (skip + n)))
    by (intros s Hs; inversion Hs; subst; lia).
  rewrite (Query_limit (Some n))
    by (intros s Hs; inversion Hs; subst; lia).
  rewrite (Query_limit (Some m))
    by (intros s Hs; inversion Hs; subst; lia).
  rewrite (Query_limit (Some (n + m)))
    by (intros s Hs; inversion Hs; subst; lia).
  cbn [or_default]. rewrite Henc, Hthe.
  rewrite !cursor_limit_pos by lia.
  split; [reflexivity |]. split; [reflexivity |].
  rewrite <- map_app. do 3 f_equal.
  rewrite (Z2Nat.inj_add skip n), Nat.add_comm, <- skipn_skipn by lia.
  rewrite (Z2Nat.inj_add n m) by lia.
  symmetry. apply firstn_add_skipn.
Qed.

Lemma get_allocations_pages_tile_witness :
  get_allocations None None None None None (Some 0) (Some 1) db_two
  = (Ok [render_id (oid_b, sample_allocation "v2" (day 12) ALLOCATED)],
     db_two)
  /\ get_allocations None None None None None (Some 1) (Some 1) db_two
     = (Ok [render_id
              (oid_a, sample_allocation "v1" (day 10 + 43200000) ALLOCATED)],
        db_two)
  /\ get_allocations None None None None None (Some 0) (Some 2) db_two
     = (Ok [render_id (oid_b, sample_allocation "v2" (day 12) ALLOCATED);
            render_id
              (oid_a, sample_allocation "v1" (day 10 + 43200000) ALLOCATED)],
        db_two).
Proof.
  apply (get_allocations_pages_tile None None None None None 0 1 1 db_two
           [(oid_b, sample_allocation "v2" (day 12) ALLOCATED);
            (oid_a, sample_allocation "v1" (day 10 + 43200000) ALLOCATED)]);
    try lia.
  - now left.
  - cbn. repeat constructor; cbn; intuition discriminate.
  - cbn. apply perm_swap.
  - repeat constructor. unfold date_desc. cbn. vm_compute. discriminate.
Defined.

(** ** Statistics *)

Lemma status_eqb_eq (a b : AllocationStatus) :
  status_eqb a b = true <-> a = b.
Proof. destruct a, b; cbn; split; congruence. Qed.

Lemma status_value_inj (a b : AllocationStatus) :
  status_value a = status_value b -> a = b.
Proof. destruct a, b; cbn; congruence. Qed.

Lemma bump_sum (s : AllocationStatus) (g : list (AllocationStatus * nat)) :
  list_sum (map snd (bump s g)) = S (list_sum (map snd g)).
Proof.
  unfold list_sum.
  induction g as [| [k n] g IH]; cbn [bump]; [reflexivity |].
  destruct (status_eqb k s); cbn [map snd fold_right]; [reflexivity |].
  rewrite IH. lia.
Qed.

Lemma bump_count (s s' : AllocationStatus)
    (g : list (AllocationStatus * nat)) :
  group_count (bump s g) s'
  = (group_count g s' + if status_eqb s s' then 1 else 0)%nat.
Proof.
  induction g as [| [k n] g IH]; cbn [bump group_count].
  - destruct (status_eqb s s'); reflexivity.
  - destruct k, s, s'; cbn [status_eqb group_count] in *;
      try lia; exact IH.
Qed.

Lemma bump_keys (s : AllocationStatus) (g : list (AllocationStatus * nat)) :
  NoDup (map fst g) ->
  NoDup (map fst (bump s g))
  /\ (forall k, In k (map fst (bump s g)) <-> k = s \/ In k (map fst g)).
Proof.
  induction g as [| [k n] g IH]; cbn [bump map fst].
  - intros _. split; [repeat constructor; intros [] |].
    intros k. cbn. intuition congruence.
  - intros Hnd. inversion Hnd as [| ? ? Hk Hg]; subst.
    destruct (status_eqb k s) eqn:Hks; cbn [map fst].
    + apply status_eqb_eq in Hks. subst k.
      split; [exact Hnd |]. intros k. cbn. intuition congruence.
    + destruct (IH Hg) as [IH1 IH2]. split.
      * constructor; [| exact IH1]. rewrite IH2. intros [-> | Hin].
        -- destruct s; discriminate.
        -- contradiction.
      * intros k'. cbn. rewrite IH2. intuition congruence.
Qed.

Lemma bump_positive (s : AllocationStatus)
    (g : list (AllocationStatus * nat)) :
  Forall (fun kn => (0 < snd kn)%nat) g ->
  Forall (fun kn => (0 < snd kn)%nat) (bump s g).
Proof.
  induction 1 as [| [k n] g Hk Hg IH]; cbn [bump].
  - repeat constructor.
  - destruct (status_eqb k s); constructor; cbn [snd] in *; auto; lia.
Qed.

Lemma fold_bump (ds : collection Allocation)
    (g : list (AllocationStatus * nat)) :
  NoDup (map fst g) ->
  Forall (fun kn => (0 < snd kn)%nat) g ->
  let g' := fold_left (fun g d => bump (status (snd d)) g) ds g in
  NoDup (map fst g')
  /\ Forall (fun kn => (0 < snd kn)%nat) g'
  /\ list_sum (map snd g')
     = (list_sum (map snd g) + List.length ds)%nat
  /\ (forall s, group_count g' s
                = (group_count g s + count_status s ds)%nat).
Proof.
  revert g. induction ds as [| d ds IH]; intros g Hnd Hpos; cbv zeta;
    cbn [fold_left].
  - split; [exact Hnd |]. split; [exact Hpos |].
    split; [cbn [List.length]; lia |].
    intros s. unfold count_status. cbn [filter List.length]. lia.
  - destruct (IH (bump (status (snd d)) g)
                (proj1 (bump_keys _ _ Hnd)) (bump_positive _ _ Hpos))
      as (H1 & H2 & H3 & H4).
    split; [exact H1 |]. split; [exact H2 |]. split.
    + rewrite H3, bump_sum. cbn [List.length]. lia.
    + intros s. rewrite H4, bump_count. unfold count_status.
      cbn [filter]. destruct (status_eqb (status (snd d)) s);
        cbn [List.length]; lia.
Qed.

Lemma dict_set_fresh (d : list (string * nat)) (k : string) (v : nat) :
  ~ In k (map fst d) -> dict_set d k v = d ++ [(k, v)].
Proof.
  induction d as [| [k' v'] d IH]; cbn [dict_set map fst app];
    [reflexivity |].
  intros Hk. destruct (String.eqb_spec k' k) as [-> | _].
  - elim Hk. now left.
  - rewrite IH; [reflexivity |]. intros Hin. apply Hk. now right.
Qed.

Lemma fold_dict_set (g : list (AllocationStatus * nat))
    (acc : list (string * nat)) :
  NoDup (map fst acc ++ map status_value (map fst g)) ->
  fold_left (fun d stat => dict_set d (status_value (fst stat)) (snd stat))
            g acc
  = acc ++ map (fun stat => (status_value (fst stat), snd stat)) g.
Proof.
  revert acc. induction g as [| [k n] g IH]; intros acc Hnd;
    cbn [fold_left map fst snd].
  - now rewrite app_nil_r.
  - cbn [map fst] in Hnd.
    rewrite dict_set_fresh.
    + rewrite IH.
      * now rewrite <- app_assoc.
      * rewrite map_app. cbn [map fst]. now rewrite <- app_assoc.
    + apply NoDup_remove_2 in Hnd. intros Hin. apply Hnd.
      apply in_or_app. now left.
Qed.

Lemma dict_get_groups (g : list (AllocationStatus * nat))
    (s : AllocationStatus) :
  Forall (fun kn => (0 < snd kn)%nat) g ->
  dict_get (map (fun stat => (status_value (fst stat), snd stat)) g)
           (status_value s)
  = match group_count g s with
    | O => None
    | S n => Some (S n)
    end.
Proof.
  induction 1 as [| [k n] g Hk Hg IH]; cbn [map dict_get group_count fst snd];
    [reflexivity |].
  destruct (String.eqb_spec (status_value k) (status_value s)) as [He | Hne].
  - apply status_value_inj in He. subst k.
    rewrite (proj2 (status_eqb_eq s s) eq_refl).
    cbn [snd] in Hk. destruct n; [lia | reflexivity].
  - destruct (status_eqb k s) eqn:Hks; [| exact IH].
    apply status_eqb_eq in Hks. now subst k.
Qed.

Lemma matches_stats_query (start_date end_date : option date)
    (c : collection Allocation) :
  filter (matches (stats_query start_date end_date)) c
  = counted start_date end_date c.
Proof.
  unfold counted, stats_query.
  destruct start_date as [s |], end_date as [e |];
    try (induction c as [| d c IH]; cbn [filter]; [reflexivity |];
         now rewrite IH).
  apply filter_ext. intros d. unfold matches.
  cbn [q__id q_employee_id q_vehicle_id q_status q_allocation_date opt_test
       date_test gte_test lte_test andb].
  apply eq_true_iff_eq.
  rewrite !andb_true_iff, !Z.leb_le, ge_start_of_day, le_end_of_day.
  tauto.
Qed.

(** X15. [get_allocation_stats] counts every allocation once: it never
    fails and never changes the store; the total is the number of
    allocations counted, which are those dated from the start day to the
    end day inclusive when both bounds are given and all the stored
    allocations when either bound is missing; the total is the sum of the
    breakdown; and the breakdown gives each status the number of counted
    allocations with that status, with no entry for a status that has
    none. *)
Theorem get_allocation_stats_counts
    (start_date end_date : option date) (db : Db) :
  exists stats,
    get_allocation_stats start_date end_date db = (Ok stats, db)
    /\ total_allocations stats
       = List.length (counted start_date end_date (allocations db))
    /\ total_allocations stats = list_sum (map snd (status_breakdown stats))
    /\ (forall s,
          dict_get (status_breakdown stats) (status_value s)
          = match count_status s
                    (counted start_date end_date (allocations db)) with
            | O => None
            | S n => Some (S n)
            end).
Proof.
  unfold get_allocation_stats, bind, ret, allocations_aggregate_status.
  assert (Henc : query_encodable (stats_query start_date end_date) = true)
    by (destruct start_date, end_date; reflexivity).
  rewrite Henc, matches_stats_query.
  eexists. split; [reflexivity |].
  cbn [total_allocations status_breakdown].
  destruct (fold_bump (counted start_date end_date (allocations db)) []
              (NoDup_nil _) (Forall_nil _)) as (Hnd & Hpos & Hsum & Hcnt).
  fold (group_by_status (counted start_date end_date (allocations db))) in *.
  rewrite fold_dict_set.
  - cbn [app]. split; [exact Hsum |]. split.
    + now rewrite map_map.
    + intros s. rewrite (dict_get_groups _ s Hpos), Hcnt. reflexivity.
  - cbn [map app]. apply Injective_map_NoDup; [| exact Hnd].
    intros a b. apply status_value_inj.
Qed.

(** ** Availability after a booking *)

Lemma not_listed_when_allocated (db : Db) (check_date : date)
    (v : ObjectId.t * Vehicle) :
  allocated_on db check_date (ObjectId.str (fst v)) ->
  exists av,
    check_vehicle_availability check_date db = (Ok av, db)
    /\ ~ In (render_id v) (av_vehicles av)
    /\ (1 <= allocated_vehicles av)%nat.
Proof.
  intros Halloc. rewrite check_vehicle_availability_eq. cbv zeta.
  eexists. split; [reflexivity |].
  cbn [av_vehicles allocated_vehicles].
  apply allocated_set_In in Halloc. split.
  - intros Hin. apply filter_In in Hin. destruct Hin as [_ Hm].
    apply set_mem_In in Halloc. cbn [render_id fst] in Hm.
    rewrite Halloc in Hm. discriminate.
  - destruct (nodup string_dec _); [destruct Halloc | cbn; lia].
Qed.

(** X16. A booked vehicle is no longer available: after a successful
    creation for a vehicle reference that is the rendered identifier of a
    stored vehicle, [check_vehicle_availability] for the day of the
    allocation succeeds, does not list that vehicle and counts at least
    one allocated vehicle. *)
Theorem create_then_unavailable
    (inserted_id : ObjectId.t) (now_check now_created now_updated : datetime)
    (allocation : AllocationCreate) (db db' : Db) (r : AllocationResponse)
    (v : ObjectId.t * Vehicle)
    (Hrun : create_allocation inserted_id now_check now_created now_updated
              allocation db = (Ok r, db'))
    (Hin : In v (vehicles db))
    (Hv : ac_vehicle_id allocation = ObjectId.str (fst v)) :
  exists av,
    check_vehicle_availability (date_of (ac_allocation_date allocation)) db'
      = (Ok av, db')
    /\ In v (vehicles db')
    /\ ~ In (render_id v) (av_vehicles av)
    /\ (1 <= allocated_vehicles av)%nat.
Proof.
  rewrite create_allocation_cases in Hrun.
  destruct (date_of (ac_allocation_date allocation) <? date_of now_check);
    [discriminate Hrun |].
  destruct (find _ (allocations db)); [discriminate Hrun |].
  destruct (has_id (allocations db) inserted_id); [discriminate Hrun |].
  inversion Hrun; subst r db'. clear Hrun.
  destruct (not_listed_when_allocated
              {| allocations :=
                   allocations db
                   ++ [(inserted_id,
                        new_allocation_of allocation now_created
                          now_updated)];
                 vehicles := vehicles db |}
              (date_of (ac_allocation_date allocation)) v)
    as (av & Hav & Hnot & Hcount).
  - exists (inserted_id,
            new_allocation_of allocation now_created now_updated).
    cbn [allocations snd new_allocation_of vehicle_id status
         allocation_date].
    split; [apply in_or_app; right; now left |].
    split; [now symmetry |]. split; [discriminate | reflexivity].
  - exists av. auto.
Qed.

Lemma create_then_unavailable_witness :
  exists av,
    check_vehicle_availability 11
      (snd (create_allocation oid_d (day 9) (day 9) (day 9)
              (sample_request "bbbbbbbbbbbbbbbbbbbbbbbb" (day 11)) db_fleet))
      = (Ok av,
         snd (create_allocation oid_d (day 9) (day 9) (day 9)
                (sample_request "bbbbbbbbbbbbbbbbbbbbbbbb" (day 11))
                db_fleet))
    /\ ~ In (render_id (oid_b, sample_vehicle (BString "d2")))
            (av_vehicles av).
Proof.
  destruct (create_then_unavailable oid_d (day 9) (day 9) (day 9)
              (sample_request "bbbbbbbbbbbbbbbbbbbbbbbb" (day 11))
              db_fleet _ _ (oid_b, sample_vehicle (BString "d2")) eq_refl)
    as (av & Hav & _ & Hnot & _).
  - right. now left.
  - reflexivity.
  - exists av. split; [exact Hav | exact Hnot].
Defined.

(** X17. Cancelled allocations do not take a vehicle away: when every
    allocation stored for the day checked is cancelled (or there is none),
    [check_vehicle_availability] returns every stored vehicle, in stored
    order, counts no allocated vehicle and as many available vehicles as
    there are vehicles. *)
Theorem availability_all_free (check_date : date) (db : Db)
    (Hfree : forall d, In d (allocations db) ->
               date_of (allocation_date (snd d)) = check_date ->
               status (snd d) = CANCELLED) :
  check_vehicle_availability check_date db
  = (Ok {| av_date := check_date;
           total_vehicles := List.length (vehicles db);
           allocated_vehicles := 0;
           available_vehicles := List.length (vehicles db);
           av_vehicles := map render_id (vehicles db) |}, db).
Proof.
  rewrite check_vehicle_availability_eq. cbv zeta.
  assert (Hnone : filter (matches (day_query check_date)) (allocations db)
                  = []).
  { destruct (filter _ (allocations db)) as [| d l] eqn:Hf; [reflexivity |].
    assert (Hin : In d (filter (matches (day_query check_date))
                          (allocations db))) by (rewrite Hf; now left).
    apply filter_In in Hin. destruct Hin as [Hin Hm].
    apply matches_day_query in Hm. destruct Hm as [Hst Hd].
    now elim Hst; apply Hfree. }
  rewrite Hnone. cbn [map nodup].
  assert (Hall : filter (fun v : string * Vehicle =>
                           negb (set_mem (fst v) []))
                   (map render_id (vehicles db))
                 = map render_id (vehicles db)).
  { apply forallb_filter_id. apply forallb_forall. reflexivity. }
  rewrite Hall, !length_map. reflexivity.
Qed.

Lemma availability_all_free_witness :
  check_vehicle_availability 12 db_fleet
  = (Ok {| av_date := 12;
           total_vehicles := 2;
           allocated_vehicles := 0;
           available_vehicles := 2;
           av_vehicles := map render_id (vehicles db_fleet) |}, db_fleet).
Proof.
  apply (availability_all_free 12 db_fleet).
  intros d [<- | []] Hd. vm_compute in Hd. discriminate Hd.
Defined.

(** ** Vehicle creation: outcomes *)

Lemma find_inserted_vehicle (i : ObjectId.t) (f : Vehicle)
    (c : collection Vehicle) :
  has_id c i = false ->
  find (vehicle_matches {| vq__id := Some i; vq_driver_id := None |})
       (c ++ [(i, f)]) = Some (i, f).
Proof.
  unfold has_id, vehicle_matches. cbn [vq__id vq_driver_id opt_test].
  induction c as [| d c IH]; cbn [existsb app find].
  - intros _. cbn [fst]. now rewrite ObjectId_eqb_refl.
  - intros H. apply orb_false_iff in H. destruct H as [Hd Hc].
    rewrite Hd. cbn [andb]. now apply IH.
Qed.

Lemma create_vehicle_cases (inserted_id : ObjectId.t) (now : datetime)
    (vehicle : VehicleBase) (db : Db) :
  create_vehicle inserted_id now vehicle db
  = match ObjectId.new (vb_driver_id vehicle) with
    | Raise e => (Raise e, db)
    | Ok driver =>
        match find (vehicle_matches
                      {| vq__id := None;
                         vq_driver_id := Some (BObjectId driver) |})
                   (vehicles db) with
        | Some _ => (Raise DriverAlreadyAssigned, db)
        | None =>
            if has_id (vehicles db) inserted_id
            then (Raise DuplicateKeyError, db)
            else
              (Ok (ObjectId.str inserted_id, new_vehicle_of vehicle now),
               {| allocations := allocations db;
                  vehicles :=
                    vehicles db
                    ++ [(inserted_id, new_vehicle_of vehicle now)] |})
        end
    end.
Proof.
  unfold create_vehicle, new_vehicle_of. run.
  destruct (ObjectId.new (vb_driver_id vehicle)) as [driver | e]; cbn;
    [| reflexivity].
  unfold find_one.
  destruct (find _ (vehicles db)); cbn; [reflexivity |].
  unfold insert_one.
  destruct (has_id (vehicles db) inserted_id) eqn:Hfresh; cbn;
    [reflexivity |].
  now rewrite (find_inserted_vehicle _ _ _ Hfresh).
Qed.

(** X18. [create_vehicle] writes at most once: when it raises, the store
    is as it was; when it returns, the response carries the rendered
    inserted identifier, the request's fields, the driver reference kept as
    the string it came as and the creation timestamp, and the store is the
    old one with exactly that vehicle appended, the allocations
    untouched. *)
Theorem create_vehicle_writes_once (inserted_id : ObjectId.t)
    (now : datetime) (vehicle : VehicleBase) (db : Db) :
  (forall e, fst (create_vehicle inserted_id now vehicle db) = Raise e ->
     snd (create_vehicle inserted_id now vehicle db) = db)
  /\ (forall r, fst (create_vehicle inserted_id now vehicle db) = Ok r ->
        r = (ObjectId.str inserted_id, new_vehicle_of vehicle now)
        /\ ObjectId.is_valid (vb_driver_id vehicle) = true
        /\ has_id (vehicles db) inserted_id = false
        /\ snd (create_vehicle inserted_id now vehicle db)
           = {| allocations := allocations db;
                vehicles := vehicles db ++ [(inserted_id, snd r)] |}).
Proof.
  rewrite create_vehicle_cases. unfold ObjectId.is_valid.
  destruct (ObjectId.new (vb_driver_id vehicle)) as [driver | e0];
    [| split; [reflexivity | intros r H; discriminate H]].
  destruct (find _ (vehicles db));
    [split; [reflexivity | intros r H; discriminate H] |].
  destruct (has_id (vehicles db) inserted_id);
    [split; [reflexivity | intros r H; discriminate H] |].
  split; [intros e H; discriminate H |].
  intros r H. cbn [fst snd] in *. inversion H; subst r. auto.
Qed.

(** X19. What [create_vehicle] refuses: a driver reference that is not a
    well-formed identifier ends the call with the constructor's unhandled
    exception; a driver reference whose identifier is held, as an
    identifier, by a stored vehicle is refused with the
    driver-already-assigned error (HTTP 400).  The store is unchanged in
    both cases. *)
Theorem create_vehicle_refusals (inserted_id : ObjectId.t) (now : datetime)
    (vehicle : VehicleBase) (db : Db) :
  (ObjectId.is_valid (vb_driver_id vehicle) = false ->
   create_vehicle inserted_id now vehicle db
   = (Raise (InvalidId (vb_driver_id vehicle)), db))
  /\ (forall driver v,
        ObjectId.new (vb_driver_id vehicle) = Ok driver ->
        In v (vehicles db) ->
        driver_id (snd v) = BObjectId driver ->
        create_vehicle inserted_id now vehicle db
        = (Raise DriverAlreadyAssigned, db)).
Proof.
  rewrite create_vehicle_cases. split.
  - intros Hbad. now rewrite (ObjectId_is_valid_false _ Hbad).
  - intros driver v -> Hin Hdr.
    destruct (find _ (vehicles db)) eqn:Hfind; [reflexivity |].
    pose proof (find_none _ _ Hfind v Hin) as Hm.
    unfold vehicle_matches in Hm.
    cbn [vq__id vq_driver_id opt_test andb] in Hm.
    rewrite Hdr in Hm. cbn [bson_eqb] in Hm.
    now rewrite ObjectId_eqb_refl in Hm.
Qed.

Lemma create_vehicle_refusals_witness :
  create_vehicle oid_b (day 2) (sample_vehicle_request "driver-1") empty_db
  = (Raise (InvalidId "driver-1"), empty_db)
  /\ create_vehicle oid_b (day 2)
       (sample_vehicle_request "dddddddddddddddddddddddd")
       {| allocations := [];
          vehicles := [(oid_a, sample_vehicle (BObjectId oid_d))] |}
     = (Raise DriverAlreadyAssigned,
        {| allocations := [];
           vehicles := [(oid_a, sample_vehicle (BObjectId oid_d))] |}).
Proof.
  split.
  - apply (proj1 (create_vehicle_refusals oid_b (day 2)
                    (sample_vehicle_request "driver-1") empty_db)).
    reflexivity.
  - apply (proj2 (create_vehicle_refusals oid_b (day 2)
                    (sample_vehicle_request "dddddddddddddddddddddddd")
                    {| allocations := [];
                       vehicles :=
                         [(oid_a, sample_vehicle (BObjectId oid_d))] |})
             oid_d (oid_a, sample_vehicle (BObjectId oid_d)));
      [reflexivity | now left | reflexivity].
Defined.

(** X20. A new vehicle is available at once: after a successful
    [create_vehicle], [check_vehicle_availability] for any day on which no
    stored allocation that is not cancelled refers to the new identifier
    lists the created vehicle, exactly as the creation returned it. *)
Theorem create_vehicle_then_available (inserted_id : ObjectId.t)
    (now : datetime) (vehicle : VehicleBase) (db db' : Db)
    (r : with_id Vehicle) (check_date : date)
    (Hrun : create_vehicle inserted_id now vehicle db = (Ok r, db'))
    (Hfree : ~ allocated_on db check_date (ObjectId.str inserted_id)) :
  exists av,
    check_vehicle_availability check_date db' = (Ok av, db')
    /\ In r (av_vehicles av)
    /\ total_vehicles av = S (List.length (vehicles db)).
Proof.
  rewrite create_vehicle_cases in Hrun.
  destruct (ObjectId.new (vb_driver_id vehicle)); [| discriminate Hrun].
  destruct (find _ (vehicles db)); [discriminate Hrun |].
  destruct (has_id (vehicles db) inserted_id); [discriminate Hrun |].
  inversion Hrun; subst r db'. clear Hrun.
  rewrite check_vehicle_availability_eq. cbv zeta.
  eexists. split; [reflexivity |].
  cbn [av_vehicles total_vehicles allocations vehicles].
  split.
  - apply filter_In. split.
    + apply in_map_iff.
      exists (inserted_id, new_vehicle_of vehicle now).
      split; [reflexivity | apply in_or_app; right; now left].
    + cbn [fst].
      destruct (set_mem (ObjectId.str inserted_id) _) eqn:Hm;
        [| reflexivity].
      apply set_mem_In in Hm.
      apply (allocated_set_In
               {| allocations := allocations db;
                  vehicles :=
                    vehicles db
                    ++ [(inserted_id, new_vehicle_of vehicle now)] |})
        in Hm.
      now elim Hfree.
  - rewrite length_map, length_app. cbn [List.length]. lia.
Qed.

Lemma create_vehicle_then_available_witness :
  exists av,
    check_vehicle_availability 10
      (snd (create_vehicle oid_d (day 2)
              (sample_vehicle_request "dddddddddddddddddddddddd") db_fleet))
    = (Ok av,
       snd (create_vehicle oid_d (day 2)
              (sample_vehicle_request "dddddddddddddddddddddddd") db_fleet))
    /\ total_vehicles av = 3%nat.
Proof.
  destruct (create_vehicle_then_available oid_d (day 2)
              (sample_vehicle_request "dddddddddddddddddddddddd")
              db_fleet _ _ 10 eq_refl) as (av & Hav & _ & Htotal).
  - intros (x & [<- | []] & Hv & _). discriminate Hv.
  - exists av. split; [exact Hav | exact Htotal].
Defined.

(** ** Employees and drivers *)

Lemma find_inserted_id {F : Type} (i : ObjectId.t) (f : F)
    (c : collection F) :
  has_id c i = false -> find (id_is i) (c ++ [(i, f)]) = Some (i, f).
Proof.
  unfold has_id, id_is. induction c as [| d c IH]; cbn [existsb app find].
  - intros _. cbn [fst]. now rewrite ObjectId_eqb_refl.
  - intros H. apply orb_false_iff in H. destruct H as [Hd Hc].
    rewrite Hd. now apply IH.
Qed.

(** X21. [create_employee] and [create_driver] accept any record: with an
    identifier that is new to the collection they return the request's
    fields with the creation timestamp under the rendered identifier and
    append exactly that document, leaving the other collections alone;
    with an identifier already present they raise the store's
    duplicate-key error and change nothing.  No field is checked, so the
    same record can be stored any number of times. *)
Theorem create_entity_outcome (inserted_id : ObjectId.t) (now : datetime)
    (employee : EmployeeBase) (driver : DriverBase) (st : Store) :
  create_employee inserted_id now employee st
  = (if has_id (employees st) inserted_id
     then (Raise DuplicateKeyError, st)
     else
       let e := {| e_name := eb_name employee;
                   e_department := eb_department employee;
                   e_email := eb_email employee;
                   e_created_at := Some now |} in
       (Ok (ObjectId.str inserted_id, e),
        {| core := core st;
           employees := employees st ++ [(inserted_id, e)];
           drivers := drivers st |}))
  /\ create_driver inserted_id now driver st
     = (if has_id (drivers st) inserted_id
        then (Raise DuplicateKeyError, st)
        else
          let d := {| d_name := drb_name driver;
                      d_license_number := drb_license_number driver;
                      d_contact_number := drb_contact_number driver;
                      d_created_at := Some now |} in
          (Ok (ObjectId.str inserted_id, d),
           {| core := core st;
              employees := employees st;
              drivers := drivers st ++ [(inserted_id, d)] |})).
Proof.
  unfold create_employee, create_driver, insert_one, find_one. split.
  - destruct (has_id (employees st) inserted_id) eqn:Hfresh; [reflexivity |].
    cbv zeta. now rewrite (find_inserted_id _ _ _ Hfresh).
  - destruct (has_id (drivers st) inserted_id) eqn:Hfresh; [reflexivity |].
    cbv zeta. now rewrite (find_inserted_id _ _ _ Hfresh).
Qed.

(** ** Seeding *)

Lemma keeps_sbind {A B : Type} (m : SM A) (k : A -> SM B) :
  keeps_allocations m -> (forall a, keeps_allocations (k a)) ->
  keeps_allocations (sbind m k).
Proof.
  intros Hm Hk st. unfold sbind. specialize (Hm st).
  destruct (m st) as [[a | e] st']; cbn [snd] in *; [| exact Hm].
  now rewrite (Hk a st').
Qed.

Lemma keeps_employees_insert (i : ObjectId.t) (f : Employee) :
  keeps_allocations (employees_insert i f).
Proof.
  intros st. unfold employees_insert. now destruct (insert_one _ _ _).
Qed.

Lemma keeps_drivers_insert (i : ObjectId.t) (f : Driver) :
  keeps_allocations (drivers_insert i f).
Proof.
  intros st. unfold drivers_insert. now destruct (insert_one _ _ _).
Qed.

Lemma keeps_vehicles_insert (i : ObjectId.t) (f : Vehicle) :
  keeps_allocations (vehicles_insert i f).
Proof.
  intros st. unfold vehicles_insert. now destruct (insert_one _ _ _).
Qed.

Lemma keeps_first_id {F : Type} (c : Store -> collection F) :
  keeps_allocations (first_id c).
Proof. intros st. unfold first_id. now destruct (c st). Qed.

Lemma keeps_second_id {F : Type} (c : Store -> collection F) :
  keeps_allocations (second_id c).
Proof. intros st. unfold second_id. now destruct (skipn 1 (c st)). Qed.

Lemma keeps_seed_allocation (i : ObjectId.t) (now_c now_u : datetime)
    (allocation : AllocationCreate) :
  keeps_allocations (seed_allocation i now_c now_u allocation).
Proof. intros st. reflexivity. Qed.

Lemma seed_allocation_fails (i : ObjectId.t) (now_c now_u : datetime)
    (allocation : AllocationCreate) (st : Store) :
  seed_allocation i now_c now_u allocation st
  = (Failed (NoAttribute "PENDING"), st).
Proof. reflexivity. Qed.

Lemma sbind_not_done {A B : Type} (m : SM A) (k : A -> SM B) (st : Store) :
  (forall a st' b, fst (k a st') <> Done b) ->
  forall b, fst (sbind m k st) <> Done b.
Proof.
  intros Hk b. unfold sbind.
  destruct (m st) as [[a | e] st']; [apply Hk | discriminate].
Qed.

(** X22. [seed_data] never completes and never stores an allocation:
    whatever the store and the identifiers, it does not return its
    message, and the allocations are afterwards exactly those stored
    before.  Building the first allocation reads
    [AllocationStatus.PENDING], which the enumeration does not have. *)
Theorem seed_data_never_completes (env : SeedEnv) (st : Store) :
  (forall message, fst (seed_data env st) <> Done message)
  /\ allocations (core (snd (seed_data env st))) = allocations (core st).
Proof.
  split.
  - unfold seed_data.
    do 13 (apply sbind_not_done; intros ? ?).
    intros b. unfold sbind at 1. rewrite seed_allocation_fails.
    discriminate.
  - revert st. change (keeps_allocations (seed_data env)).
    unfold seed_data.
    repeat (apply keeps_sbind;
            [first [ apply keeps_employees_insert
                   | apply keeps_drivers_insert
                   | apply keeps_vehicles_insert
                   | apply keeps_first_id
                   | apply keeps_second_id
                   | apply keeps_seed_allocation ]
            | intros ?]).
    intros st. reflexivity.
Qed.

Lemma has_id_snoc {F : Type} (c : collection F) (j i : ObjectId.t) (f : F) :
  has_id (c ++ [(j, f)]) i = has_id c i || ObjectId.eqb j i.
Proof.
  unfold has_id. rewrite existsb_app. cbn [existsb fst].
  now rewrite orb_false_r.
Qed.

Lemma ObjectId_eqb_neq (a b : ObjectId.t) :
  a <> b -> ObjectId.eqb a b = false.
Proof.
  intros H. destruct (ObjectId.eqb a b) eqn:E; [| reflexivity].
  apply ObjectId_eqb_eq in E. contradiction.
Qed.

Lemma insert_one_fresh {F : Type} (i : ObjectId.t) (f : F)
    (c : collection F) :
  has_id c i = false -> insert_one i f c = Ok (c ++ [(i, f)]).
Proof. unfold insert_one. now intros ->. Qed.

Lemma first_id_snoc {F : Type} (c : Store -> collection F) (st : Store)
    (l : collection F) (x : ObjectId.t * F) (dflt : ObjectId.t) :
  c st = l ++ [x] ->
  first_id c st
  = (Done (ObjectId.str (nth 0 (map fst (l ++ [x])) dflt)), st).
Proof.
  intros Hc. unfold first_id. rewrite Hc.
  destruct l as [| d l]; reflexivity.
Qed.

Lemma second_id_snoc {F : Type} (c : Store -> collection F) (st : Store)
    (l : collection F) (x y : ObjectId.t * F) (dflt : ObjectId.t) :
  c st = (l ++ [x]) ++ [y] ->
  second_id c st
  = (Done (ObjectId.str (nth 1 (map fst ((l ++ [x]) ++ [y])) dflt)), st).
Proof.
  intros Hc. unfold second_id. rewrite Hc.
  destruct l as [| d [| d' l]]; reflexivity.
Qed.

(** X23. What [seed_data] leaves behind: given identifiers that are new
    to their collections and distinct from one another, it stores the
    three employees, the two drivers and two vehicles, then fails on the
    missing attribute.  The vehicles have no brand and no registration
    number, and they refer to the first and second driver of the whole
    collection, which are the seeded drivers only when no driver was
    stored before. *)
Theorem seed_data_outcome (env : SeedEnv) (st : Store)
    (He1 : has_id (employees st) (id_e1 env) = false)
    (He2 : has_id (employees st) (id_e2 env) = false)
    (He3 : has_id (employees st) (id_e3 env) = false)
    (He12 : id_e1 env <> id_e2 env)
    (He13 : id_e1 env <> id_e3 env)
    (He23 : id_e2 env <> id_e3 env)
    (Hd1 : has_id (drivers st) (id_d1 env) = false)
    (Hd2 : has_id (drivers st) (id_d2 env) = false)
    (Hd12 : id_d1 env <> id_d2 env)
    (Hv1 : has_id (vehicles (core st)) (id_v1 env) = false)
    (Hv2 : has_id (vehicles (core st)) (id_v2 env) = false)
    (Hv12 : id_v1 env <> id_v2 env) :
  seed_data env st = (Failed (NoAttribute "PENDING"), seeded env st).
Proof.
  unfold seed_data, seeded.
  unfold sbind at 1. unfold employees_insert at 1.
  rewrite (insert_one_fresh _ _ _ He1).
  unfold sbind at 1. unfold employees_insert at 1. cbn [employees core drivers].
  rewrite insert_one_fresh
    by (rewrite has_id_snoc, He2, (ObjectId_eqb_neq _ _ He12); reflexivity).
  unfold sbind at 1. unfold employees_insert at 1. cbn [employees core drivers].
  rewrite insert_one_fresh
    by (rewrite !has_id_snoc, He3, (ObjectId_eqb_neq _ _ He13),
          (ObjectId_eqb_neq _ _ He23); reflexivity).
  unfold sbind at 1. unfold drivers_insert at 1. cbn [employees core drivers].
  rewrite (insert_one_fresh _ _ _ Hd1).
  unfold sbind at 1. unfold drivers_insert at 1. cbn [employees core drivers].
  rewrite insert_one_fresh
    by (rewrite has_id_snoc, Hd2, (ObjectId_eqb_neq _ _ Hd12); reflexivity).
  unfold sbind at 1.
  erewrite (first_id_snoc drivers _ _ _ (id_d1 env)) by reflexivity.
  unfold sbind at 1.
  erewrite (second_id_snoc drivers _ _ _ _ (id_d2 env)) by reflexivity.
  unfold sbind at 1. unfold vehicles_insert at 1.
  cbn [employees core drivers vehicles allocations].
  rewrite (insert_one_fresh _ _ _ Hv1).
  unfold sbind at 1. unfold vehicles_insert at 1.
  cbn [employees core drivers vehicles allocations].
  rewrite insert_one_fresh
    by (rewrite has_id_snoc, Hv2, (ObjectId_eqb_neq _ _ Hv12); reflexivity).
  unfold sbind at 1.
  erewrite (first_id_snoc employees _ _ _ (id_e1 env)) by reflexivity.
  unfold sbind at 1.
  erewrite (first_id_snoc (fun st => vehicles (core st)) _ _ _ (id_v1 env)) by reflexivity.
  unfold sbind at 1.
  erewrite (second_id_snoc employees _ _ _ _ (id_e1 env)) by reflexivity.
  unfold sbind at 1.
  erewrite (second_id_snoc (fun st => vehicles (core st)) _ _ _ _ (id_v1 env)) by reflexivity.
  unfold sbind at 1. rewrite seed_allocation_fails.
  cbv zeta. rewrite <- !app_assoc. reflexivity.
Qed.

Lemma seed_data_outcome_witness :
  seed_data sample_env empty_store
  = (Failed (NoAttribute "PENDING"), seeded sample_env empty_store)
  /\ map (fun v => driver_id (snd v))
         (vehicles (core (seeded sample_env empty_store)))
     = [BString "d00000000000000000000001";
        BString "d00000000000000000000002"].
Proof.
  split; [| reflexivity].
  apply (seed_data_outcome sample_env empty_store);
    try reflexivity; discriminate.
Defined.

(** ** Delete: invariants of the allocations *)

Lemma delete_one_NoDup (p : ObjectId.t * Allocation -> bool)
    (c : collection Allocation) :
  NoDup (map fst c) -> NoDup (map fst (delete_one p c)).
Proof.
  induction c as [| x c IH]; cbn [delete_one map]; [trivial |].
  intros Hnd. inversion Hnd as [| ? ? Hx Hc]; subst.
  destruct (p x); [exact Hc |].
  cbn [map]. constructor; [| now apply IH].
  intros Hin. apply Hx. apply in_map_iff in Hin.
  destruct Hin as [d [Hd Hin]]. apply in_map_iff. exists d.
  split; [exact Hd | now apply (delete_one_incl p)].
Qed.

(** X24. [delete_allocation] keeps the allocations well-keyed and
    conflict-free: distinct identifiers stay distinct and a store without
    double booking stays without, whatever the outcome of the call. *)
Theorem delete_allocation_keeps_invariants
    (today : date) (allocation_id : string) (db : Db)
    (Hkey : unique_ids (allocations db))
    (Hslot : slot_unique (allocations db)) :
  unique_ids (allocations (snd (delete_allocation today allocation_id db)))
  /\ slot_unique
       (allocations (snd (delete_allocation today allocation_id db))).
Proof.
  rewrite delete_allocation_cases.
  destruct (ObjectId.new allocation_id) as [oid | e]; [| now split].
  destruct (find (matches (by_id oid)) (allocations db)) as [d |];
    [| now split].
  destruct (allocation_date (snd d) <=? combine today time_max);
    [now split |].
  cbn [snd allocations]. split.
  - now apply delete_one_NoDup.
  - intros d1 d2 H1 H2. apply Hslot; eapply delete_one_incl; eassumption.
Qed.

Lemma delete_allocation_keeps_invariants_witness :
  unique_ids
    (allocations (snd (delete_allocation 9 "aaaaaaaaaaaaaaaaaaaaaaaa"
                         db_one)))
  /\ slot_unique
       (allocations (snd (delete_allocation 9 "aaaaaaaaaaaaaaaaaaaaaaaa"
                            db_one))).
Proof.
  apply (delete_allocation_keeps_invariants 9 "aaaaaaaaaaaaaaaaaaaaaaaa"
           db_one).
  - unfold unique_ids. cbn. repeat constructor. intros [].
  - intros d1 d2 [<- | []] [<- | []] _ _ _ _. reflexivity.
Defined.

(** ** Listing: nothing is lost *)



(** ** An allocation booked for today *)

(** X26. An allocation booked for the current day is locked from the
    start: after a successful creation under a well-formed identifier,
    on any day that is not before the allocation's date, and so already on
    the day of a same-day booking, [update_allocation] and
    [delete_allocation] on the returned id are refused with their
    window-closed errors and leave the store as it is. *)
Theorem created_for_today_is_locked
    (inserted_id : ObjectId.t) (now_check now_created now_updated : datetime)
    (allocation : AllocationCreate) (db db' : Db) (r : AllocationResponse)
    (today : date) (now : datetime) (allocation_update : AllocationUpdate)
    (Hwf : ObjectId.new (ObjectId.str inserted_id) = Ok inserted_id)
    (Hrun : create_allocation inserted_id now_check now_created now_updated
              allocation db = (Ok r, db'))
    (Htoday : date_of (ac_allocation_date allocation) <= today) :
  update_allocation today now (fst r) allocation_update db'
    = (Raise UpdateWindowClosed, db')
  /\ delete_allocation today (fst r) db' = (Raise DeleteWindowClosed, db').
Proof.
  rewrite create_allocation_cases in Hrun.
  destruct (date_of (ac_allocation_date allocation) <? date_of now_check);
    [discriminate Hrun |].
  destruct (find _ (allocations db)); [discriminate Hrun |].
  destruct (has_id (allocations db) inserted_id) eqn:Hfresh;
    [discriminate Hrun |].
  inversion Hrun; subst r db'. cbn [fst].
  rewrite update_allocation_cases, delete_allocation_cases, Hwf.
  cbn [allocations]. rewrite (find_inserted _ _ _ Hfresh).
  cbn [snd new_allocation_of allocation_date].
  destruct (Z.leb_spec (date_of (ac_allocation_date allocation)) today)
    as [_ | Hgt]; [| lia].
  destruct (Z.leb_spec (ac_allocation_date allocation)
              (combine today time_max)) as [_ | Hgt].
  - split; reflexivity.
  - pose proof (proj2 (le_end_of_day _ _) Htoday). lia.
Qed.

Lemma created_for_today_is_locked_witness :
  update_allocation 9 (day 9 + 7) "bbbbbbbbbbbbbbbbbbbbbbbb"
    {| au_purpose := Supplied (Some "visit"); au_status := Unset |}
    (snd (create_allocation oid_b (day 9 + 5) (day 9 + 5) (day 9 + 5)
            (sample_request "v2" (day 9 + 6)) db_one))
  = (Raise UpdateWindowClosed,
     snd (create_allocation oid_b (day 9 + 5) (day 9 + 5) (day 9 + 5)
            (sample_request "v2" (day 9 + 6)) db_one)).
Proof.
  refine (proj1 (created_for_today_is_locked oid_b (day 9 + 5) (day 9 + 5)
                   (day 9 + 5) (sample_request "v2" (day 9 + 6)) db_one _ _
                   9 (day 9 + 7)
                   {| au_purpose := Supplied (Some "visit");
                      au_status := Unset |} eq_refl eq_refl _)).
  vm_compute. discriminate.
Defined.
